(** * MindDoc: a shallow embedding of the document-analysis backend

    The development follows the Python sources module by module:
    - [app/routes/upload.py], [app/routes/status.py], [app/routes/api.py];
    - [app/services/document_processor.py], [app/services/dify_service.py],
      [app/services/event_manager.py].

    Conventions.
    - A Python [str] is a Rocq [string] whose characters are read as the code
      points U+0000..U+00FF; on these the string operations below are the
      Python ones ([str.split], [str.strip], [str.lower], [str.rsplit]).
    - Python numbers ([int] and [float]) are exact rationals [Q].
    - A Python [dict] with string keys is a [gmap string pyval].
    - Calls into libraries (spaCy, textstat, python-docx, requests, uuid,
      datetime) are fields of an oracle record [Env]; mutable process state is
      a record [World] threaded through a state-and-exception monad.
    - [DebugLogger] calls only write log lines and are left out; where an
      argument of such a call can raise, its evaluation is kept. *)

From Stdlib Require Import Ascii String QArith Qminmax.
From stdpp Require Import gmap strings list fin_maps pretty.

Set Warnings "-register-all".
Open Scope string_scope.

(** ** Python strings *)

Module PyStr.

Definition code (c : ascii) : N := N_of_ascii c.

(** [str.isspace] on one character: TAB..CR, FS..US, SPACE, NEL, NBSP. *)
Definition isspace (c : ascii) : bool :=
  let n := code c in
  ((9 <=? n) && (n <=? 13) || (28 <=? n) && (n <=? 32)
   || (n =? 133) || (n =? 160))%N.

(** [str.lower] on one character: A-Z, and the Latin-1 capitals
    U+00C0..U+00DE without the multiplication sign U+00D7. *)
Definition lower_char (c : ascii) : ascii :=
  let n := code c in
  if ((65 <=? n) && (n <=? 90)
      || (192 <=? n) && (n <=? 222) && negb (n =? 215))%N
  then ascii_of_N (n + 32) else c.

Fixpoint lower (s : string) : string :=
  match s with
  | EmptyString => EmptyString
  | String c s' => String (lower_char c) (lower s')
  end.

(** [c in s] for a one-character [c]. *)
Fixpoint contains (c : ascii) (s : string) : bool :=
  match s with
  | EmptyString => false
  | String d s' => Ascii.eqb d c || contains c s'
  end.

(** [s.rsplit(sep, 1)]: the text before and after the last [sep], or [s]
    alone when [sep] does not occur. *)
Fixpoint rsplit1 (sep : ascii) (s : string) : list string :=
  match s with
  | EmptyString => [EmptyString]
  | String c s' =>
      match rsplit1 sep s' with
      | [a; b] => [String c a; b]
      | _ => if Ascii.eqb c sep then [EmptyString; s'] else [String c s']
      end
  end.

(** [s.split()]: maximal runs of characters that are not whitespace. The
    accumulator [cur] is the token being read. *)
Fixpoint split_go (s cur : string) : list string :=
  match s with
  | EmptyString => if String.eqb cur "" then [] else [cur]
  | String c s' =>
      if isspace c
      then (if String.eqb cur "" then split_go s' ""
            else cur :: split_go s' "")
      else split_go s' (cur ++ String c "")
  end.

Definition split (s : string) : list string := split_go s "".

Fixpoint lstrip (s : string) : string :=
  match s with
  | EmptyString => EmptyString
  | String c s' => if isspace c then lstrip s' else s
  end.

Fixpoint rstrip (s : string) : string :=
  match s with
  | EmptyString => EmptyString
  | String c s' =>
      match rstrip s' with
      | EmptyString => if isspace c then EmptyString else String c EmptyString
      | r => String c r
      end
  end.

(** [s.strip()] *)
Definition strip (s : string) : string := rstrip (lstrip s).

(** [s.split(sep)] for a one-character separator: never empty. *)
Fixpoint split_on (sep : ascii) (s : string) : list string :=
  match s with
  | EmptyString => [EmptyString]
  | String c s' =>
      if Ascii.eqb c sep then EmptyString :: split_on sep s'
      else match split_on sep s' with
           | [] => [String c EmptyString]
           | t :: ts => String c t :: ts
           end
  end.

(** [sep.join(l)] *)
Fixpoint join (sep : string) (l : list string) : string :=
  match l with
  | [] => ""
  | [x] => x
  | x :: l' => x ++ sep ++ join sep l'
  end.

(** [s.startswith(p)] *)
Definition startswith (p s : string) : bool := String.prefix p s.

(** [s[1:]] *)
Definition tail (s : string) : string :=
  match s with
  | EmptyString => EmptyString
  | String _ s' => s'
  end.

(** Truth value of a string: non-empty. *)
Definition truthy (s : string) : bool := negb (String.eqb s "").

(** [s] ends with [suf]: [s] is [suf], or the rest of [s] ends with it. *)
Fixpoint endswith (s suf : string) : bool :=
  String.eqb s suf ||
  match s with
  | EmptyString => false
  | String _ s' => endswith s' suf
  end.

(** [sub in s] *)
Fixpoint substring_of (sub s : string) : bool :=
  String.prefix sub s ||
  match s with
  | EmptyString => false
  | String _ s' => substring_of sub s'
  end.

(** Number of places where a token starts: a character that is not
    whitespace and follows whitespace or the start of the text. *)
Fixpoint token_starts (after_space : bool) (s : string) : nat :=
  match s with
  | EmptyString => 0
  | String c s' =>
      if isspace c then token_starts true s'
      else (if after_space then 1 else 0) + token_starts false s'
  end.

(** Some character of [s] is not whitespace. *)
Fixpoint has_text (s : string) : bool :=
  match s with
  | EmptyString => false
  | String c s' => negb (isspace c) || has_text s'
  end.

End PyStr.

(** ** Python values, exceptions and library oracles *)

Inductive pyval : Type :=
  | VNone : pyval
  | VBool : bool -> pyval
  | VNum : Q -> pyval
  | VStr : string -> pyval
  | VList : list pyval -> pyval
  | VDict : gmap string pyval -> pyval.

(** A tuple is written as the list of its components, which is also how
    [jsonify] renders it. *)
Definition VTuple (l : list pyval) : pyval := VList l.

Definition VInt (z : Z) : pyval := VNum (inject_Z z).
Definition VNat (n : nat) : pyval := VInt (Z.of_nat n).

Inductive exn_class : Type :=
  | OSError | RuntimeError | ValueError | TypeError | KeyError | IndexError
  | AttributeError | Timeout | RequestException | OtherException.

(** An exception: its class and [str(e)]. Every class above derives from
    [Exception]. *)
Record exn : Type := Exn { exn_cls : exn_class; exn_text : string }.

Inductive result (A : Type) : Type :=
  | Ok : A -> result A
  | Raise : exn -> result A.
Arguments Ok {A} _.
Arguments Raise {A} _.

Definition Qltb (x y : Q) : bool := negb (Qle_bool y x).

(** [bool(v)] *)
Definition py_truthy (v : pyval) : bool :=
  match v with
  | VNone => false
  | VBool b => b
  | VNum q => negb (Qeq_bool q 0)
  | VStr s => PyStr.truthy s
  | VList l => negb (Nat.eqb (length l) 0)
  | VDict d => negb (Nat.eqb (size d) 0)
  end.

(** [v[key]] for a string [key] *)
Definition py_getitem (v : pyval) (key : string) : result pyval :=
  match v with
  | VDict d =>
      match d !! key with
      | Some x => Ok x
      | None => Raise (Exn KeyError ("'" ++ key ++ "'"))
      end
  | VStr _ => Raise (Exn TypeError "string indices must be integers")
  | VList _ => Raise (Exn TypeError "list indices must be integers or slices, not str")
  | _ => Raise (Exn TypeError "object is not subscriptable")
  end.

(** [len(v)] *)
Definition py_len (v : pyval) : result nat :=
  match v with
  | VStr s => Ok (String.length s)
  | VList l => Ok (length l)
  | VDict d => Ok (size d)
  | _ => Raise (Exn TypeError "object has no len()")
  end.

(** The operand of [+] with a number: a number, or a bool read as 0 or 1. *)
Definition py_number (v : pyval) : result Q :=
  match v with
  | VNum q => Ok q
  | VBool b => Ok (if b then 1 else 0)%Q
  | _ => Raise (Exn TypeError "unsupported operand type(s) for +")
  end.

(** [max(a, b)] and [min(a, b)] keep the first argument unless the second
    is strictly better. *)
Definition py_max (a b : Q) : Q := if Qltb a b then b else a.
Definition py_min (a b : Q) : Q := if Qltb b a then b else a.

(** *** [datetime] *)

Record datetime : Type := Datetime {
  year : nat; month : nat; day : nat;
  hour : nat; minute : nat; second : nat; microsecond : nat }.

Definition digit (n : nat) : ascii := ascii_of_nat (48 + n mod 10).

(** [n] in decimal on exactly [width] digits, zero padded. *)
Fixpoint zpad (width n : nat) : string :=
  match width with
  | O => ""
  | S w => zpad w (n / 10) ++ String (digit n) ""
  end.

(** [datetime.isoformat()]: [YYYY-MM-DDTHH:MM:SS], followed by [.ffffff]
    when the microsecond is not zero. *)
Definition isoformat (d : datetime) : string :=
  zpad 4 (year d) ++ "-" ++ zpad 2 (month d) ++ "-" ++ zpad 2 (day d)
  ++ "T" ++ zpad 2 (hour d) ++ ":" ++ zpad 2 (minute d) ++ ":"
  ++ zpad 2 (second d)
  ++ (if Nat.eqb (microsecond d) 0 then "" else "." ++ zpad 6 (microsecond d)).

(** *** spaCy documents and HTTP responses *)

Record token : Type := Token { tok_text : string; dep_ : string }.

Record nlp_doc : Type := NlpDoc {
  doc_tokens : list token;
  ents : list (string * string) }.

Record http_response : Type := HttpResponse {
  status_code : Z;
  resp_text : string;
  resp_json : result pyval }.

(** The libraries and the configuration the application runs against. *)
Record Env : Type := {
  spacy_load : option exn;
  nlp : string -> result nlp_doc;
  flesch_reading_ease : string -> result Q;
  Document : string -> result (list string);
  uuid4 : nat -> string;
  datetime_now : nat -> datetime;
  secure_filename : string -> string;
  file_save : string -> option exn;
  requests_post : string -> pyval -> result http_response;
  int_of_str : string -> option Z;
  DIFY_API_KEY : option string;
  DIFY_API_URL : string;
  UPLOAD_FOLDER : string }.

(** ** Process state *)

Record World : Type := mkWorld {
  processing_status : gmap string (gmap string pyval);
  analysis_results : gmap string (gmap string pyval);
  clock : nat;
  uuids : nat;
  threads : list (string * string);
  saved_files : list string;
  documents_opened : list string;
  http_posts : list string }.

(** [create_app]: both tables start empty. *)
Definition create_app : World :=
  mkWorld ∅ ∅ 0 0 [] [] [] [].

Definition set_processing_status (f : gmap string (gmap string pyval) -> gmap string (gmap string pyval)) (w : World) : World :=
  mkWorld (f (processing_status w)) (analysis_results w) (clock w) (uuids w)
    (threads w) (saved_files w) (documents_opened w) (http_posts w).

Definition set_analysis_results (f : gmap string (gmap string pyval) -> gmap string (gmap string pyval)) (w : World) : World :=
  mkWorld (processing_status w) (f (analysis_results w)) (clock w) (uuids w)
    (threads w) (saved_files w) (documents_opened w) (http_posts w).

Definition tick (w : World) : World :=
  mkWorld (processing_status w) (analysis_results w) (S (clock w)) (uuids w)
    (threads w) (saved_files w) (documents_opened w) (http_posts w).

Definition next_uuid (w : World) : World :=
  mkWorld (processing_status w) (analysis_results w) (clock w) (S (uuids w))
    (threads w) (saved_files w) (documents_opened w) (http_posts w).

Definition add_thread (t : string * string) (w : World) : World :=
  mkWorld (processing_status w) (analysis_results w) (clock w) (uuids w)
    (threads w ++ [t]) (saved_files w) (documents_opened w) (http_posts w).

Definition add_saved_file (p : string) (w : World) : World :=
  mkWorld (processing_status w) (analysis_results w) (clock w) (uuids w)
    (threads w) (saved_files w ++ [p]) (documents_opened w) (http_posts w).

Definition add_document_opened (p : string) (w : World) : World :=
  mkWorld (processing_status w) (analysis_results w) (clock w) (uuids w)
    (threads w) (saved_files w) (documents_opened w ++ [p]) (http_posts w).

Definition add_http_post (url : string) (w : World) : World :=
  mkWorld (processing_status w) (analysis_results w) (clock w) (uuids w)
    (threads w) (saved_files w) (documents_opened w) (http_posts w ++ [url]).

(** ** The state-and-exception monad

    A computation changes the world and either returns or raises; what it
    wrote before raising stays written. *)

Definition M (A : Type) : Type := World -> World * result A.

Definition ret {A} (a : A) : M A := fun w => (w, Ok a).

Definition bind {A B} (m : M A) (k : A -> M B) : M B :=
  fun w =>
    match m w with
    | (w', Ok a) => k a w'
    | (w', Raise e) => (w', Raise e)
    end.

Definition raise {A} (e : exn) : M A := fun w => (w, Raise e).

(** [try: m  except Exception as e: h e] *)
Definition try_except {A} (m : M A) (h : exn -> M A) : M A :=
  fun w =>
    match m w with
    | (w', Ok a) => (w', Ok a)
    | (w', Raise e) => h e w'
    end.

Definition lift {A} (r : result A) : M A := fun w => (w, r).

Definition modify (f : World -> World) : M unit := fun w => (f w, Ok tt).

Definition gets {A} (f : World -> A) : M A := fun w => (w, Ok (f w)).

Notation "x <- m ;; k" := (bind m (fun x => k))
  (at level 100, m at next level, right associativity).
Notation "m ;;; k" := (bind m (fun _ => k))
  (at level 100, right associativity).

Definition rbind {A B} (r : result A) (k : A -> result B) : result B :=
  match r with
  | Ok a => k a
  | Raise e => Raise e
  end.

Notation "x <~ r ;; k" := (rbind r (fun x => k))
  (at level 100, r at next level, right associativity).

(** [sum(f(p) for p in l)], from the start value [acc]. *)
Fixpoint py_sum (f : pyval -> result Q) (l : list pyval) (acc : Q) : result Q :=
  match l with
  | [] => Ok acc
  | p :: l' => x <~ f p ;; py_sum f l' (acc + x)%Q
  end.

(** A JSON error body [{'error': msg}]. *)
Definition error_body (msg : string) : pyval :=
  VDict {[ "error" := VStr msg ]}.

Definition response : Type := pyval * Z.

Section Services.

Variable env : Env.

(** [datetime.now()]: one reading of the clock. *)
Definition now : M datetime :=
  fun w => (tick w, Ok (datetime_now env (clock w))).

(** [str(uuid.uuid4())] *)
Definition new_uuid : M string :=
  fun w => (next_uuid w, Ok (uuid4 env (uuids w))).

(** The record both [_update_status] methods build. *)
Definition status_record (status message timestamp : string) : gmap string pyval :=
  <["status" := VStr status]>
    (<["message" := VStr message]>
       (<["timestamp" := VStr timestamp]> ∅)).

(** *** [app/services/document_processor.py] *)

(** [DocumentProcessor.__init__]: an [OSError] of [spacy.load] becomes a
    [RuntimeError]; any other exception passes through. *)
Definition DocumentProcessor_init : M unit :=
  match spacy_load env with
  | None => ret tt
  | Some e =>
      match exn_cls e with
      | OSError =>
          raise (Exn RuntimeError
                   "spaCy model not loaded. Please install the required model.")
      | _ => raise e
      end
  end.

(** [DocumentProcessor._update_status] *)
Definition DocumentProcessor_update_status (job_id status message : string) : M unit :=
  t <- now ;;
  modify (set_processing_status
            (insert job_id (status_record status message (isoformat t)))).

Definition analysis_record (index : Z) (text : string) (word_count : nat)
    (readability : Q) (entities comments : list pyval) : gmap string pyval :=
  <["paragraph_index" := VInt index]>
    (<["text" := VStr text]>
       (<["word_count" := VNat word_count]>
          (<["readability" := VNum readability]>
             (<["entities" := VList entities]>
                (<["comments" := VList comments]> ∅))))).

Definition entity (e : string * string) : pyval :=
  VTuple [VStr (fst e); VStr (snd e)].

(** [sum(1 for token in doc_nlp if token.dep_ == "nsubjpass")] *)
Definition passive_count (doc_nlp : nlp_doc) : nat :=
  length (filter (fun t => dep_ t = "nsubjpass") (doc_tokens doc_nlp)).

Definition short_comment : pyval :=
  VStr "This paragraph is quite short. Consider adding more detail.".
Definition difficult_comment : pyval :=
  VStr "This paragraph is difficult to read. Consider simplifying the language.".
Definition passive_comment (n : nat) : pyval :=
  VStr ("Consider using active voice instead of passive voice ("
        ++ pretty n ++ " instances).").
Definition error_comment : pyval := VStr "Error analyzing this paragraph".

(** The [except] branch of [_analyze_single_paragraph]. *)
Definition basic_analysis (text : string) (index : Z) : gmap string pyval :=
  analysis_record index text (length (PyStr.split text)) 0 [] [error_comment].

(** [DocumentProcessor._analyze_single_paragraph] *)
Definition _analyze_single_paragraph (text : string) (index : Z) : gmap string pyval :=
  match nlp env text with
  | Raise _ => basic_analysis text index
  | Ok doc_nlp =>
      match flesch_reading_ease env text with
      | Raise _ => basic_analysis text index
      | Ok readability =>
          let word_count := length (PyStr.split text) in
          let c1 := if (word_count <? 10)%nat then [short_comment] else [] in
          let c2 := if Qltb readability 30 then [difficult_comment] else [] in
          let n := passive_count doc_nlp in
          let c3 := if (0 <? n)%nat then [passive_comment n] else [] in
          analysis_record index text word_count readability
            (map entity (ents doc_nlp)) (c1 ++ c2 ++ c3)
      end
  end.

(** The loop of [_analyze_paragraphs]: [i] is the position in
    [doc.paragraphs]; paragraphs whose stripped text is empty are skipped. *)
Fixpoint analyze_from (i : nat) (paragraphs : list string) : list pyval :=
  match paragraphs with
  | [] => []
  | text :: rest =>
      if PyStr.truthy (PyStr.strip text)
      then VDict (_analyze_single_paragraph text (Z.of_nat i))
             :: analyze_from (S i) rest
      else analyze_from (S i) rest
  end.

(** [DocumentProcessor._analyze_paragraphs]: the [except] clause re-raises. *)
Definition _analyze_paragraphs (file_path : string) : M (list pyval) :=
  modify (add_document_opened file_path) ;;;
  paragraphs <- lift (Document env file_path) ;;
  ret (analyze_from 0 paragraphs).

Definition overall_record (total_paragraphs : nat)
    (total_words average_readability total_entities overall_score : Q)
    : gmap string pyval :=
  <["total_paragraphs" := VNat total_paragraphs]>
    (<["total_words" := VNum total_words]>
       (<["average_readability" := VNum average_readability]>
          (<["total_entities" := VNum total_entities]>
             (<["overall_score" := VNum overall_score]> ∅)))).

(** The [try] block of [_generate_overall_analysis]. *)
Definition overall_try (paragraph_analyses : list pyval) : result (gmap string pyval) :=
  total_words <~
    py_sum (fun p => v <~ py_getitem p "word_count" ;; py_number v)
      paragraph_analyses 0 ;;
  avg_readability <~
    match paragraph_analyses with
    | [] => Ok 0%Q
    | _ =>
        s <~ py_sum (fun p => v <~ py_getitem p "readability" ;; py_number v)
               paragraph_analyses 0 ;;
        Ok (s / inject_Z (Z.of_nat (length paragraph_analyses)))%Q
    end ;;
  total_entities <~
    py_sum (fun p => v <~ py_getitem p "entities" ;;
                     n <~ py_len v ;; Ok (inject_Z (Z.of_nat n)))
      paragraph_analyses 0 ;;
  Ok (overall_record (length paragraph_analyses) total_words avg_readability
        total_entities (py_min 100 (py_max 0 avg_readability))).

(** [DocumentProcessor._generate_overall_analysis] *)
Definition _generate_overall_analysis (paragraph_analyses : list pyval) : gmap string pyval :=
  match overall_try paragraph_analyses with
  | Ok analysis => analysis
  | Raise _ => overall_record (length paragraph_analyses) 0 0 0 0
  end.

Definition results_record (job_id file_path : string)
    (paragraph_analyses : list pyval) (overall_analysis : gmap string pyval)
    (created_at : string) : gmap string pyval :=
  <["job_id" := VStr job_id]>
    (<["file_path" := VStr file_path]>
       (<["paragraph_analyses" := VList paragraph_analyses]>
          (<["overall_analysis" := VDict overall_analysis]>
             (<["status" := VStr "completed"]>
                (<["created_at" := VStr created_at]> ∅))))).

(** [DocumentProcessor.process_document] *)
Definition process_document (file_path job_id : string) : M (gmap string pyval) :=
  start_time <- now ;;
  try_except
    (DocumentProcessor_update_status job_id "processing" "Starting analysis..." ;;;
     paragraph_analyses <- _analyze_paragraphs file_path ;;
     let overall_analysis := _generate_overall_analysis paragraph_analyses in
     created_at <- now ;;
     let results :=
       results_record job_id file_path paragraph_analyses overall_analysis
         (isoformat created_at) in
     modify (set_analysis_results (insert job_id results)) ;;;
     DocumentProcessor_update_status job_id "completed" "Analysis completed" ;;;
     end_time <- now ;;
     ret results)
    (fun e =>
       DocumentProcessor_update_status job_id "failed"
         ("Analysis failed: " ++ exn_text e) ;;;
       raise e).

(** *** [app/services/dify_service.py] *)

(** [DifyService.__init__]: the headers, or [None] without an API key. *)
Definition DifyService_headers : option (gmap string pyval) :=
  match DIFY_API_KEY env with
  | None => None
  | Some key =>
      if PyStr.truthy key
      then Some (<["Authorization" := VStr ("Bearer " ++ key)]>
                   (<["Content-Type" := VStr "application/json"]> ∅))
      else None
  end.

Definition dify_error (msg : string) : gmap string pyval :=
  <["error" := VStr msg]> (<["suggestions" := VList []]> ∅).

(** [for p in v]: the items a value iterates over. *)
Definition py_iter (v : pyval) : result (list pyval) :=
  match v with
  | VList l => Ok l
  | VStr s => Ok (map (fun c => VStr (String c "")) (list_ascii_of_string s))
  | VDict d => Ok (map (fun kv => VStr (fst kv)) (map_to_list d))
  | _ => Raise (Exn TypeError "object is not iterable")
  end.

(** [[p['text'] for p in paragraphs]], each item required to be a string by
    [str.join]. *)
Fixpoint paragraph_texts (paragraphs : list pyval) : result (list string) :=
  match paragraphs with
  | [] => Ok []
  | p :: ps =>
      t <~ py_getitem p "text" ;;
      ts <~ paragraph_texts ps ;;
      match t with
      | VStr s => Ok (s :: ts)
      | _ => Raise (Exn TypeError "sequence item: expected str instance")
      end
  end.

Definition newline : ascii := ascii_of_nat 10.
Definition nl : string := String newline "".

Definition dify_prompt (text_content : string) : string :=
  nl ++ "            Analyze the following document and provide improvement suggestions:"
  ++ nl ++ "            "
  ++ nl ++ "            Document Content:"
  ++ nl ++ "            " ++ text_content
  ++ nl ++ "            "
  ++ nl ++ "            Please provide:"
  ++ nl ++ "            1. Overall document assessment"
  ++ nl ++ "            2. Specific improvement suggestions for each paragraph"
  ++ nl ++ "            3. Writing style recommendations"
  ++ nl ++ "            4. Content structure suggestions"
  ++ nl ++ "            5. Grammar and clarity improvements"
  ++ nl ++ "            ".

Definition dify_payload (prompt : string) : pyval :=
  VDict (<["inputs" := VDict ∅]>
           (<["query" := VStr prompt]>
              (<["response_mode" := VStr "blocking"]>
                 (<["conversation_id" := VStr ""]>
                    (<["user" := VStr "minddoc_user"]> ∅))))).

(** The loop of [_process_dify_response]. A line of code points below 256
    never starts with the bullet U+2022, so only the dash is tested. *)
Fixpoint bullet_suggestions (lines : list string) : list pyval :=
  match lines with
  | [] => []
  | line :: rest =>
      let line := PyStr.strip line in
      if PyStr.startswith "-" line
      then let suggestion := PyStr.strip (PyStr.tail line) in
           if PyStr.truthy suggestion
           then VStr suggestion :: bullet_suggestions rest
           else bullet_suggestions rest
      else bullet_suggestions rest
  end.

(** [DifyService._process_dify_response] *)
Definition _process_dify_response (resp : pyval) : gmap string pyval :=
  match resp with
  | VDict d =>
      match default (VStr "") (d !! "answer") with
      | VStr answer =>
          <["suggestions" := VList (bullet_suggestions (PyStr.split_on newline answer))]>
            (<["raw_response" := VStr answer]> ∅)
      | _ =>
          <["suggestions" := VList []]>
            (<["raw_response" := VStr "Error processing response"]> ∅)
      end
  | _ =>
      <["suggestions" := VList []]>
        (<["raw_response" := VStr "Error processing response"]> ∅)
  end.

(** The [try] block of [analyze_document_with_dify]. *)
Definition dify_try (headers : gmap string pyval)
    (document_data : gmap string pyval) : M (gmap string pyval) :=
  paragraphs <- lift (py_iter (default (VList []) (document_data !! "paragraph_analyses"))) ;;
  texts <- lift (paragraph_texts paragraphs) ;;
  let text_content := PyStr.join (nl ++ nl) texts in
  let payload := dify_payload (dify_prompt text_content) in
  let url := DIFY_API_URL env ++ "/chat-messages" in
  modify (add_http_post url) ;;;
  resp <- lift (requests_post env url payload) ;;
  duration <- now ;;
  if (status_code resp =? 200)%Z
  then body <- lift (resp_json resp) ;;
       ret (_process_dify_response body)
  else raise (Exn OtherException
                ("Dify API error: " ++ pretty (status_code resp) ++ " - "
                 ++ resp_text resp)).

(** [DifyService.analyze_document_with_dify] *)
Definition analyze_document_with_dify (document_data : gmap string pyval) : M (gmap string pyval) :=
  match DifyService_headers with
  | None => ret (dify_error "Dify API key not configured")
  | Some headers =>
      start_time <- now ;;
      try_except (dify_try headers document_data)
        (fun e =>
           t <- now ;;
           match exn_cls e with
           | Timeout => ret (dify_error "API request timed out")
           | RequestException =>
               ret (dify_error ("Network error: " ++ exn_text e))
           | _ => ret (dify_error (exn_text e))
           end)
  end.

(** *** [app/services/event_manager.py] *)

(** [EventManager._update_status] *)
Definition EventManager_update_status (job_id status message : string) : M unit :=
  t <- now ;;
  modify (set_processing_status
            (insert job_id (status_record status message (isoformat t)))).

(** The [try] block of the worker thread's body. *)
Definition thread_try (file_path job_id : string) : M unit :=
  DocumentProcessor_init ;;;
  results <- process_document file_path job_id ;;
  dify_results <- analyze_document_with_dify results ;;
  let combined_results := <["dify_analysis" := VDict dify_results]> results in
  modify (set_analysis_results (insert job_id combined_results)).

(** The body [process_document] of the worker thread that
    [start_document_processing] starts. *)
Definition thread_body (file_path job_id : string) : M unit :=
  try_except (thread_try file_path job_id)
    (fun e =>
       EventManager_update_status job_id "failed"
         ("Processing failed: " ++ exn_text e)).

(** [EventManager.start_document_processing]: the thread is started and
    runs later. *)
Definition start_document_processing (file_path job_id : string) : M unit :=
  modify (add_thread (file_path, job_id)).

Definition unknown_status : gmap string pyval :=
  <["status" := VStr "unknown"]> (<["message" := VStr "Job not found"]> ∅).

(** [EventManager.get_status] *)
Definition get_status (job_id : string) : M (gmap string pyval) :=
  gets (fun w => default unknown_status (processing_status w !! job_id)).

(** [EventManager.get_results] *)
Definition get_results (job_id : string) : M (gmap string pyval) :=
  gets (fun w => default ∅ (analysis_results w !! job_id)).

(** *** [app/routes/upload.py] *)

Definition ALLOWED_EXTENSIONS : gset string := {[ "docx" ]}.

(** [allowed_file]. The subscript [[1]] is evaluated only when a dot
    occurs, and then [rsplit] has returned two parts. *)
Definition allowed_file (filename : string) : bool :=
  PyStr.contains "." filename &&
  match PyStr.rsplit1 "." filename !! 1%nat with
  | Some ext => bool_decide (PyStr.lower ext ∈ ALLOWED_EXTENSIONS)
  | None => false
  end.

(** [upload_document]. The request is the filename of its [file] part, if
    it has one; a [FileStorage] is true when its filename is not empty.
    Creating the upload directory, writing the file and reading its size
    are the single oracle [file_save]. *)
Definition upload_document (req_file : option string) : M response :=
  start_time <- now ;;
  try_except
    (match req_file with
     | None => ret (error_body "No file provided", 400%Z)
     | Some filename =>
         if String.eqb filename ""
         then ret (error_body "No file selected", 400%Z)
         else if PyStr.truthy filename && allowed_file filename
         then
           job_id <- new_uuid ;;
           let filename' := secure_filename env filename in
           let file_path :=
             UPLOAD_FOLDER env ++ "/" ++ job_id ++ "_" ++ filename' in
           match file_save env file_path with
           | Some e => raise e
           | None =>
               modify (add_saved_file file_path) ;;;
               start_document_processing file_path job_id ;;;
               end_time <- now ;;
               ret (VDict (<["job_id" := VStr job_id]>
                             (<["message" := VStr "Document uploaded and processing started"]>
                                (<["status" := VStr "processing"]> ∅))),
                    200%Z)
           end
         else ret (error_body "Invalid file type. Only .docx files are allowed.",
                   400%Z)
     end)
    (fun e =>
       end_time <- now ;;
       ret (error_body ("Upload failed: " ++ exn_text e), 500%Z)).

(** *** [app/routes/status.py] *)

(** [get_processing_status] *)
Definition get_processing_status (job_id : string) : M response :=
  try_except
    (status <- get_status job_id ;;
     ret (VDict status, 200%Z))
    (fun e => ret (error_body ("Failed to get status: " ++ exn_text e), 500%Z)).

(** [get_analysis_results] *)
Definition get_analysis_results (job_id : string) : M response :=
  try_except
    (results <- get_results job_id ;;
     if negb (py_truthy (VDict results))
     then ret (error_body "Analysis results not found", 404%Z)
     else ret (VDict results, 200%Z))
    (fun e => ret (error_body ("Failed to retrieve results: " ++ exn_text e), 500%Z)).

(** *** [app/routes/api.py] *)

(** [d.get(key)]; a value that is not a dict has no [get]. *)
Definition py_get (v : pyval) (key : string) : result pyval :=
  match v with
  | VDict d => Ok (default VNone (d !! key))
  | _ => Raise (Exn AttributeError "object has no attribute 'get'")
  end.

Definition py_is_none (v : pyval) : bool :=
  match v with
  | VNone => true
  | _ => false
  end.

(** [int(v)]: numbers are truncated towards zero, strings are parsed by the
    library; the failures are [ValueError] and [TypeError]. *)
Definition py_int (v : pyval) : result Z :=
  match v with
  | VNum q => Ok (Z.quot (Qnum q) (Zpos (Qden q)))
  | VBool b => Ok (if b then 1 else 0)%Z
  | VStr s =>
      match int_of_str env s with
      | Some z => Ok z
      | None => Raise (Exn ValueError "invalid literal for int() with base 10")
      end
  | _ => Raise (Exn TypeError "int() argument must be a string or a real number")
  end.

(** The position a Python index denotes in a list of length [n]: negative
    indices count from the end. *)
Definition norm_index (n : nat) (i : Z) : option nat :=
  if (0 <=? i)%Z
  then (if (i <? Z.of_nat n)%Z then Some (Z.to_nat i) else None)
  else (if (- Z.of_nat n <=? i)%Z then Some (Z.to_nat (Z.of_nat n + i)) else None).

(** [v[i]] for an integer [i], with the position read. On a value that is
    not a list the expression [v[i]['text']] of the handler raises as well
    (a character has no string subscript, a dict has no integer key). *)
Definition py_list_item (v : pyval) (i : Z) : result (nat * pyval) :=
  match v with
  | VList l =>
      match norm_index (length l) i with
      | Some k =>
          match l !! k with
          | Some x => Ok (k, x)
          | None => Raise (Exn IndexError "list index out of range")
          end
      | None => Raise (Exn IndexError "list index out of range")
      end
  | _ => Raise (Exn TypeError "object is not a list of records")
  end.

(** [processor._analyze_single_paragraph(new_text, paragraph_id)] on a JSON
    value: for a value that is not a string [nlp] raises, and the [except]
    branch then fails on [text.split()]. *)
Definition analyze_value (text : pyval) (index : Z) : result (gmap string pyval) :=
  match text with
  | VStr s => Ok (_analyze_single_paragraph s index)
  | _ => Raise (Exn AttributeError "object has no attribute 'split'")
  end.

(** [current_app.analysis_results.get(job_id)]: every key of the table is
    a string; lists and dicts are not hashable. *)
Definition lookup_results (job_id : pyval) : M (option (string * gmap string pyval)) :=
  match job_id with
  | VStr j =>
      gets (fun w => match analysis_results w !! j with
                     | Some r => Some (j, r)
                     | None => None
                     end)
  | VList _ | VDict _ => raise (Exn TypeError "unhashable type")
  | _ => ret None
  end.

(** Writing the list [l] back as [results['paragraph_analyses']] of job
    [j]: the in-place mutation of the stored object. *)
Definition store_paragraphs (j : string) (results : gmap string pyval)
    (l : list pyval) : M unit :=
  modify (set_analysis_results
            (insert j (<["paragraph_analyses" := VList l]> results))).

(** The branch of [update_paragraph] taken when the bounds check
    [paragraph_id < len(results['paragraph_analyses'])] succeeds. The two
    [len] calls at its end are arguments of the log line, which Python
    evaluates and which can raise. *)
Definition update_in_place (j : string) (results : gmap string pyval)
    (pa : pyval) (paragraph_id : Z) (new_text : pyval) : M response :=
  found <- lift (py_list_item pa paragraph_id) ;;
  let k := fst found in
  let item := snd found in
  old_text <- lift (py_getitem item "text") ;;
  match pa, item with
  | VList l, VDict d =>
      let d1 := <["text" := new_text]> d in
      store_paragraphs j results (<[k := VDict d1]> l) ;;;
      DocumentProcessor_init ;;;
      updated_analysis <- lift (analyze_value new_text paragraph_id) ;;
      let d2 := updated_analysis ∪ d1 in
      store_paragraphs j results (<[k := VDict d2]> l) ;;;
      end_time <- now ;;
      old_len <- lift (py_len old_text) ;;
      new_len <- lift (py_len new_text) ;;
      ret (VDict (<["success" := VBool true]>
                    (<["updated_analysis" := VDict updated_analysis]> ∅)),
           200%Z)
  | _, _ => raise (Exn TypeError "object does not support item assignment")
  end.

(** The [try] block of [update_paragraph] once [data] is bound. *)
Definition update_paragraph_try (data : pyval) : M response :=
  if negb (py_truthy data)
  then ret (error_body "Invalid JSON data", 400%Z)
  else
    paragraph_id <- lift (py_get data "paragraph_id") ;;
    new_text <- lift (py_get data "new_text") ;;
    job_id <- lift (py_get data "job_id") ;;
    if negb (negb (py_is_none paragraph_id) && py_truthy new_text
             && py_truthy job_id)
    then ret (error_body "Missing required fields", 400%Z)
    else
      match py_int paragraph_id with
      | Raise _ => ret (error_body "Invalid paragraph ID format", 400%Z)
      | Ok paragraph_id =>
          found <- lookup_results job_id ;;
          match found with
          | None => ret (error_body "Analysis results not found", 404%Z)
          | Some (j, results) =>
              if negb (py_truthy (VDict results))
              then ret (error_body "Analysis results not found", 404%Z)
              else
                pa <- lift (py_getitem (VDict results) "paragraph_analyses") ;;
                n <- lift (py_len pa) ;;
                if (paragraph_id <? Z.of_nat n)%Z
                then update_in_place j results pa paragraph_id new_text
                else ret (error_body "Invalid paragraph ID", 400%Z)
          end
      end.

(** [update_paragraph]. The request is the outcome of [get_json()]. The
    handler of [except] reads [data.get('job_id')] when [data] is bound. *)
Definition update_paragraph (req_json : result pyval) : M response :=
  start_time <- now ;;
  try_except
    (data <- lift req_json ;; update_paragraph_try data)
    (fun e =>
       end_time <- now ;;
       match req_json with
       | Ok data =>
           job <- lift (py_get data "job_id") ;;
           ret (error_body "Internal server error", 500%Z)
       | Raise _ => ret (error_body "Internal server error", 500%Z)
       end).

End Services.

(** ** The running application

    Requests arrive in any order; a started worker thread runs its body at
    some later point, once. Each handler and each thread body is taken as
    one step. *)

Inductive event : Type :=
  | PostUpload (req_file : option string)
  | GetStatus (job_id : string)
  | GetAnalysis (job_id : string)
  | PostUpdateParagraph (req_json : result pyval)
  | RunThread (n : nat).

Definition remove_thread (n : nat) (w : World) : World :=
  mkWorld (processing_status w) (analysis_results w) (clock w) (uuids w)
    (delete n (threads w)) (saved_files w) (documents_opened w) (http_posts w).

Definition step (env : Env) (ev : event) (w : World) : World :=
  match ev with
  | PostUpload req_file => fst (upload_document env req_file w)
  | GetStatus job_id => fst (get_processing_status job_id w)
  | GetAnalysis job_id => fst (get_analysis_results job_id w)
  | PostUpdateParagraph req_json => fst (update_paragraph env req_json w)
  | RunThread n =>
      match threads w !! n with
      | Some (file_path, job_id) =>
          fst (thread_body env file_path job_id (remove_thread n w))
      | None => w
      end
  end.

Definition run (env : Env) (evs : list event) (w : World) : World :=
  fold_left (fun w ev => step env ev w) evs w.

(** ** Specification vocabulary *)

(** The states a job is recorded in. *)
Definition job_states : list string := ["processing"; "completed"; "failed"].

(** The text of an ISO timestamp, as a checker: [dddd-dd-ddTdd:dd:dd],
    optionally followed by a dot and six digits. *)
Definition is_digit (c : ascii) : bool :=
  let n := PyStr.code c in ((48 <=? n) && (n <=? 57))%N.

Fixpoint all_digits (s : string) : bool :=
  match s with
  | EmptyString => true
  | String c s' => is_digit c && all_digits s'
  end.

Definition iso_text (s : string) : bool :=
  let part (from len : nat) := String.substring from len s in
  let n := String.length s in
  (Nat.eqb n 19 || Nat.eqb n 26)
  && all_digits (part 0 4) && String.eqb (part 4 1) "-"
  && all_digits (part 5 2) && String.eqb (part 7 1) "-"
  && all_digits (part 8 2) && String.eqb (part 10 1) "T"
  && all_digits (part 11 2) && String.eqb (part 13 1) ":"
  && all_digits (part 14 2) && String.eqb (part 16 1) ":"
  && all_digits (part 17 2)
  && (Nat.eqb n 19 || String.eqb (part 19 1) "." && all_digits (part 20 6)).

(** A record of the status table: exactly the fields [status], [message]
    and [timestamp], the status one of the three job states, the timestamp
    an ISO time text. *)
Definition status_shape (r : gmap string pyval) : Prop :=
  dom r = ({[ "status"; "message"; "timestamp" ]} : gset string) /\
  (exists s, r !! "status" = Some (VStr s) /\ s ∈ job_states) /\
  (exists m, r !! "message" = Some (VStr m)) /\
  (exists t, r !! "timestamp" = Some (VStr t) /\ iso_text t = true).

Definition status_table_ok (w : World) : Prop :=
  forall job_id r, processing_status w !! job_id = Some r -> status_shape r.

(** Every stored results record has at least one field. *)
Definition results_table_ok (w : World) : Prop :=
  forall job_id r, analysis_results w !! job_id = Some r -> size r <> 0%nat.

Definition tables_ok (w : World) : Prop :=
  status_table_ok w /\ results_table_ok w.

(** A computation keeps a property of the world, whether it returns or
    raises. *)
Definition preserves (P : World -> Prop) {A} (m : M A) : Prop :=
  forall w, P w -> P (fst (m w)).

(** The spec's reading of the overall figures: plain sums over the typed
    paragraph records. *)
Record paragraph : Type := Paragraph {
  p_index : Z;
  p_text : string;
  p_word_count : nat;
  p_readability : Q;
  p_entities : list (string * string);
  p_comments : list string }.

Definition paragraph_dict (p : paragraph) : pyval :=
  VDict (analysis_record (p_index p) (p_text p) (p_word_count p)
           (p_readability p) (map entity (p_entities p))
           (map VStr (p_comments p))).

Fixpoint Qsum (l : list Q) : Q :=
  match l with
  | [] => 0
  | x :: l' => x + Qsum l'
  end.

Definition spec_average (l : list paragraph) : Q :=
  match l with
  | [] => 0
  | _ => Qsum (map p_readability l) / inject_Z (Z.of_nat (length l))
  end.

Definition spec_total_words (l : list paragraph) : nat :=
  list_sum (map p_word_count l).

Definition spec_total_entities (l : list paragraph) : nat :=
  list_sum (map (fun p => length (p_entities p)) l).

(** Reading a numeric field of a dict. *)
Definition num_field (d : gmap string pyval) (key : string) : option Q :=
  match d !! key with
  | Some (VNum q) => Some q
  | _ => None
  end.

(** The paragraphs that get a record: position and text of those that
    have a character which is not whitespace. *)
Fixpoint numbered_from (i : nat) (l : list string) : list (nat * string) :=
  match l with
  | [] => []
  | t :: l' => (i, t) :: numbered_from (S i) l'
  end.

Definition analysed_paragraphs (paragraphs : list string) : list (nat * string) :=
  List.filter (fun it => PyStr.has_text (snd it)) (numbered_from 0 paragraphs).

(** What the record of the paragraph [text] at position [i] holds. *)
Definition record_ok (env : Env) (it : nat * string) (r : pyval) : Prop :=
  let i := fst it in
  let text := snd it in
  exists d score entities comments,
    r = VDict d /\
    d !! "paragraph_index" = Some (VNat i) /\
    d !! "text" = Some (VStr text) /\
    d !! "word_count" = Some (VNat (PyStr.token_starts true text)) /\
    d !! "readability" = Some (VNum score) /\
    d !! "entities" = Some (VList entities) /\
    d !! "comments" = Some (VList comments) /\
    match nlp env text, flesch_reading_ease env text with
    | Ok doc, Ok q =>
        score = q /\
        entities = map entity (ents doc) /\
        ((0 < passive_count doc)%nat ->
         passive_comment (passive_count doc) ∈ comments) /\
        (passive_count doc = 0%nat ->
         forall n, passive_comment n ∉ comments)
    | _, _ => score = 0%Q /\ entities = [] /\ comments = [error_comment]
    end.

(** ** Sample environments *)

Definition sample_nlp (text : string) : result nlp_doc :=
  Ok (NlpDoc
        (map (fun w => Token w (if String.eqb w "was" then "nsubjpass" else "dep"))
           (PyStr.split text))
        (if PyStr.substring_of "Paris" text then [("Paris", "GPE")] else [])).

Definition sample_env : Env := {|
  spacy_load := None;
  nlp := sample_nlp;
  flesch_reading_ease := fun text => Ok (inject_Z (100 - Z.of_nat (String.length text)));
  Document := fun _ => Ok ["Hello world."; "   "; "The ball was thrown by John in Paris."];
  uuid4 := fun n => "job-" ++ pretty n;
  datetime_now := fun n => Datetime 2024 5 17 9 30 (n mod 60) 0;
  secure_filename := fun s => s;
  file_save := fun _ => None;
  requests_post := fun _ _ => Raise (Exn Timeout "timed out");
  int_of_str := fun _ => None;
  DIFY_API_KEY := None;
  DIFY_API_URL := "https://api.dify.ai/v1";
  UPLOAD_FOLDER := "app/static/uploads" |}.

(** The same, with a file that is not a document. *)
Definition broken_env : Env := {|
  spacy_load := None;
  nlp := sample_nlp;
  flesch_reading_ease := fun text => Ok (inject_Z (100 - Z.of_nat (String.length text)));
  Document := fun _ => Raise (Exn ValueError "File is not a zip file");
  uuid4 := fun n => "job-" ++ pretty n;
  datetime_now := fun n => Datetime 2024 5 17 9 30 (n mod 60) 0;
  secure_filename := fun s => s;
  file_save := fun _ => None;
  requests_post := fun _ _ => Raise (Exn Timeout "timed out");
  int_of_str := fun _ => None;
  DIFY_API_KEY := None;
  DIFY_API_URL := "https://api.dify.ai/v1";
  UPLOAD_FOLDER := "app/static/uploads" |}.

(** What [update_paragraph] can leave in place of a record [d]: [d] with
    the new text, or the fresh analysis laid over that. *)
Definition rewritten (env : Env) (new_text : pyval) (pid : Z)
    (d d' : gmap string pyval) : Prop :=
  d' = <["text" := new_text]> d \/
  exists s, new_text = VStr s /\
            d' = _analyze_single_paragraph env s pid ∪ <["text" := new_text]> d.

(** A paragraph analysis the overall analysis can read: a record with a
    text and a position, numeric word count and readability, and lists of
    entities and comments. *)
Definition analysis_wf (p : pyval) : Prop :=
  exists d,
    p = VDict d /\
    is_Some (d !! "text") /\
    is_Some (d !! "paragraph_index") /\
    (exists q, d !! "word_count" = Some (VNum q)) /\
    (exists q, d !! "readability" = Some (VNum q)) /\
    (exists es, d !! "entities" = Some (VList es)) /\
    (exists cs, d !! "comments" = Some (VList cs)).

(** A record of the results table, stored for job [job_id]. *)
Definition results_shape (job_id : string) (r : gmap string pyval) : Prop :=
  r !! "job_id" = Some (VStr job_id) /\
  (exists p, r !! "file_path" = Some (VStr p)) /\
  (exists l, r !! "paragraph_analyses" = Some (VList l) /\ Forall analysis_wf l) /\
  (exists o, r !! "overall_analysis" = Some (VDict o)) /\
  r !! "status" = Some (VStr "completed") /\
  (exists t, r !! "created_at" = Some (VStr t) /\ iso_text t = true).

(** Every stored results record has the shape above, and every job with
    results has a status record. *)
Definition results_table_shape (w : World) : Prop :=
  (forall j r, analysis_results w !! j = Some r -> results_shape j r) /\
  (forall j, is_Some (analysis_results w !! j) ->
             is_Some (processing_status w !! j)).

(** Values [sum] can add and values [len] can measure. *)
Definition is_number (v : pyval) : Prop :=
  match v with
  | VNum _ | VBool _ => True
  | _ => False
  end.

Definition is_sized (v : pyval) : Prop :=
  match v with
  | VStr _ | VList _ | VDict _ => True
  | _ => False
  end.

(** A record whose figures the overall analysis can add up. *)
Definition countable (p : pyval) : Prop :=
  exists d wc rd es,
    p = VDict d /\
    d !! "word_count" = Some wc /\ is_number wc /\
    d !! "readability" = Some rd /\ is_number rd /\
    d !! "entities" = Some es /\ is_sized es.

(** A family of environments that differ in what can go wrong: loading
    the model, opening the document, writing the upload, the third-party
    request and its key. *)
Definition make_env (load : option exn) (doc : result (list string))
    (save : option exn) (post : result http_response) (key : option string) : Env := {|
  spacy_load := load;
  nlp := sample_nlp;
  flesch_reading_ease := fun text => Ok (inject_Z (100 - Z.of_nat (String.length text)));
  Document := fun _ => doc;
  uuid4 := fun n => "job-" ++ pretty n;
  datetime_now := fun n => Datetime 2024 5 17 9 30 (n mod 60) 0;
  secure_filename := fun s => s;
  file_save := fun _ => save;
  requests_post := fun _ _ => post;
  int_of_str := fun _ => None;
  DIFY_API_KEY := key;
  DIFY_API_URL := "https://api.dify.ai/v1";
  UPLOAD_FOLDER := "app/static/uploads" |}.

Definition sample_document : list string :=
  ["Hello world."; "   "; "The ball was thrown by John in Paris."].

(** Document data with one paragraph, and with a record that lacks its
    text. *)
Definition sample_data : gmap string pyval :=
  {[ "paragraph_analyses" := VList [VDict {[ "text" := VStr "Hello world." ]}] ]}.

Definition textless_data : gmap string pyval :=
  {[ "paragraph_analyses" := VList [VDict ∅] ]}.

(** Environments with an API key: the request times out, or is answered
    with status 503. *)
Definition timeout_env : Env :=
  make_env None (Ok sample_document) None (Raise (Exn Timeout "timed out"))
    (Some "secret").

Definition unavailable_env : Env :=
  make_env None (Ok sample_document) None
    (Ok (HttpResponse 503 "Service Unavailable"
           (Raise (Exn ValueError "Expecting value"))))
    (Some "secret").

(** The state after one upload and its worker thread, and a request
    object for [update_paragraph]. *)
Definition sample_world : World :=
  run sample_env [PostUpload (Some "a.docx"); RunThread 0] create_app.

Definition update_request (paragraph_id : Z) (new_text job_id : string) : gmap string pyval :=
  {[ "paragraph_id" := VInt paragraph_id;
     "new_text" := VStr new_text;
     "job_id" := VStr job_id ]}.

(** An environment whose language model is not installed. *)
Definition no_model_env : Env :=
  make_env (Some (Exn OSError "Can't find model 'en_core_web_sm'"))
    (Ok sample_document) None (Raise (Exn Timeout "timed out")) None.

(** ** Log files: [app/services/debug_logger.py] and [view_logs.py] *)

(** What opening the log file for reading gives. *)
Inductive file_read : Type :=
  | FileLines (lines : list string)
  | FileNotFound
  | FileError (e : exn).

(** [l[start:]]: a negative start counts from the end; the start is
    clamped to the list. *)
Definition py_slice_from {A} (l : list A) (start : Z) : list A :=
  let n := Z.of_nat (length l) in
  let s := if (start <? 0)%Z then Z.max (n + start) 0 else Z.min start n in
  drop (Z.to_nat s) l.

(** [DebugLogger.get_recent_logs]: only [FileNotFoundError] is caught. *)
Definition get_recent_logs (file : file_read) (lines : Z) : result (list string) :=
  match file with
  | FileLines ls => Ok (py_slice_from ls (- lines))
  | FileNotFound => Ok []
  | FileError e => Raise e
  end.

(** The level of a log line in [view_log_stats]: the third field between
    bars, stripped, when the line has at least three fields. *)
Definition log_level (line : string) : option string :=
  if PyStr.contains "|" line
  then match PyStr.split_on "|" line !! 2%nat with
       | Some part => Some (PyStr.strip part)
       | None => None
       end
  else None.

(** One turn of the counting loop of [view_log_stats]. *)
Definition count_level (level_counts : gmap string nat) (line : string) : gmap string nat :=
  match log_level line with
  | Some level => <[level := (default 0 (level_counts !! level) + 1)%nat]> level_counts
  | None => level_counts
  end.

(** The [level_counts] of [view_log_stats] after its loop. *)
Definition level_counts (lines : list string) : gmap string nat :=
  fold_left count_level lines ∅.

(** How many lines carry a level. *)
Definition lines_at (level : string) (lines : list string) : nat :=
  length (filter (fun line => log_level line = Some level) lines).

(** ** Reading a stored value back *)

(** The list, and the record, a value holds; and whether a lookup has
    found one. *)
Definition as_list (v : pyval) : list pyval :=
  match v with VList l => l | _ => [] end.

Definition as_dict (v : pyval) : gmap string pyval :=
  match v with VDict d => d | _ => ∅ end.

Definition found {A} (o : option A) : bool :=
  match o with Some _ => true | None => false end.

Definition found_list (o : option pyval) : bool :=
  match o with Some (VList _) => true | _ => false end.

Definition found_dict (o : option pyval) : bool :=
  match o with Some (VDict _) => true | _ => false end.

(** * Properties *)

(** ** Lookups *)

Lemma found_default {A} (o : option A) (d : A) :
  found o = true -> o = Some (default d o).
Proof. destruct o; [reflexivity | discriminate]. Qed.

Lemma found_list_value (o : option pyval) :
  found_list o = true -> o = Some (VList (as_list (default VNone o))).
Proof. destruct o as [[]|]; first [reflexivity | discriminate]. Qed.

Lemma found_dict_value (o : option pyval) :
  found_dict o = true -> o = Some (VDict (as_dict (default VNone o))).
Proof. destruct o as [[]|]; first [reflexivity | discriminate]. Qed.

(** ** Strings *)

Module PyStrFacts.
Import PyStr.

Lemma lower_char_dot (c : ascii) :
  Ascii.eqb (lower_char c) "." = Ascii.eqb c ".".
Proof. destruct c as [[] [] [] [] [] [] [] []]; reflexivity. Qed.

Lemma contains_lower_dot (s : string) :
  contains "." (lower s) = contains "." s.
Proof.
  induction s as [|c s IH]; simpl; [reflexivity|].
  now rewrite lower_char_dot, IH.
Qed.

Lemma lower_app (s t : string) : lower (s ++ t) = lower s ++ lower t.
Proof. induction s as [|c s IH]; simpl; [reflexivity | now rewrite IH]. Qed.

Lemma contains_app (c : ascii) (s t : string) :
  contains c (s ++ t) = contains c s || contains c t.
Proof.
  induction s as [|d s IH]; simpl; [reflexivity|].
  rewrite IH. now rewrite orb_assoc.
Qed.

(** [rsplit1] cuts at the last separator, when there is one. *)
Lemma rsplit1_cases (sep : ascii) (s : string) :
  (contains sep s = false /\ rsplit1 sep s = [s]) \/
  (contains sep s = true /\
   exists a b, rsplit1 sep s = [a; b] /\ contains sep b = false /\
               s = a ++ String sep b).
Proof.
  induction s as [|c s IH]; simpl.
  - left. split; reflexivity.
  - destruct IH as [[Hno Hr] | [Hyes (a & b & Hr & Hb & Hs)]].
    + rewrite Hr, Hno, orb_false_r.
      destruct (Ascii.eqb c sep) eqn:E.
      * right. split; [reflexivity|]. exists "", s.
        apply Ascii.eqb_eq in E. subst c. repeat split; assumption.
      * left. split; reflexivity.
    + right. rewrite Hr, Hyes, orb_true_r. split; [reflexivity|].
      exists (String c a), b. split; [reflexivity|]. split; [assumption|].
      rewrite Hs at 1. reflexivity.
Qed.

Lemma endswith_without (c : ascii) (s suf : string) :
  contains c suf = true -> contains c s = false -> endswith s suf = false.
Proof.
  intros Hsuf. induction s as [|d s IH]; intros Hs.
  - destruct suf; [discriminate Hsuf | reflexivity].
  - pose proof Hs as Hs'. simpl in Hs. apply orb_false_elim in Hs as [_ Hs].
    assert (Hne : String.eqb (String d s) suf = false).
    { apply String.eqb_neq. intros <-. simpl in Hsuf, Hs'.
      congruence. }
    change (endswith (String d s) suf)
      with (String.eqb (String d s) suf || endswith s suf).
    now rewrite Hne, IH.
Qed.

Lemma endswith_cons (d : ascii) (s suf : string) :
  endswith (String d s) suf = String.eqb (String d s) suf || endswith s suf.
Proof. reflexivity. Qed.

(** After the last dot of a name stands its extension: the lowered name
    ends with [.docx] exactly when the lowered extension is [docx]. *)
Lemma endswith_docx_ext (a b : string) :
  contains "." b = false ->
  endswith (lower (a ++ String "." b)) ".docx" = String.eqb (lower b) "docx".
Proof.
  intros Hb.
  assert (Hlb : endswith (lower b) ".docx" = false).
  { apply (endswith_without "."); [reflexivity|]. now rewrite contains_lower_dot. }
  induction a as [|c a IH].
  - change (lower ("" ++ String "." b)) with (String "." (lower b)).
    rewrite endswith_cons, Hlb, orb_false_r. reflexivity.
  - change (lower (String c a ++ String "." b))
      with (String (lower_char c) (lower (a ++ String "." b))).
    rewrite endswith_cons, IH.
    assert (Hne : String.eqb (String (lower_char c) (lower (a ++ String "." b)))
                    ".docx" = false).
    { apply String.eqb_neq. intros H. injection H as _ H.
      assert (Hc : contains "." (lower (a ++ String "." b)) = true).
      { rewrite contains_lower_dot, contains_app. simpl. apply orb_true_r. }
      rewrite H in Hc. discriminate Hc. }
    now rewrite Hne.
Qed.

(** *** Tokens of [split] *)

Lemma split_go_length (s cur : string) :
  length (split_go s cur) =
  if String.eqb cur "" then token_starts true s
  else S (token_starts false s).
Proof.
  revert cur. induction s as [|c s IH]; intros cur; simpl.
  - destruct (String.eqb cur ""); reflexivity.
  - destruct (isspace c).
    + destruct (String.eqb cur "") eqn:E; simpl; rewrite IH; reflexivity.
    + rewrite IH.
      assert (Hne : String.eqb (cur ++ String c "") "" = false).
      { apply String.eqb_neq. destruct cur; discriminate. }
      rewrite Hne. destruct (String.eqb cur ""); reflexivity.
Qed.

(** The length of [s.split()] is the number of token starts of [s]. *)
Lemma split_length (s : string) : length (split s) = token_starts true s.
Proof. unfold split. now rewrite split_go_length. Qed.

(** *** Blank text *)

Lemma rstrip_truthy (s : string) : truthy (rstrip s) = has_text s.
Proof.
  induction s as [|c s IH]; [reflexivity|].
  simpl. destruct (rstrip s) eqn:E.
  - unfold truthy in IH. simpl in IH. rewrite <- IH.
    destruct (isspace c); reflexivity.
  - unfold truthy in *. simpl in *. rewrite <- IH. now rewrite orb_true_r.
Qed.

Lemma lstrip_has_text (s : string) : has_text (lstrip s) = has_text s.
Proof.
  induction s as [|c s IH]; [reflexivity|].
  simpl. destruct (isspace c) eqn:E; simpl; [exact IH | now rewrite E].
Qed.

(** [s.strip()] is true exactly when [s] has a character that is not
    whitespace. *)
Lemma strip_truthy (s : string) : truthy (strip s) = has_text s.
Proof. unfold strip. now rewrite rstrip_truthy, lstrip_has_text. Qed.



End PyStrFacts.

(** ** Upload: file names *)

Lemma in_allowed_extensions (ext : string) :
  bool_decide (ext ∈ ALLOWED_EXTENSIONS) = String.eqb ext "docx".
Proof.
  unfold ALLOWED_EXTENSIONS. destruct (String.eqb_spec ext "docx") as [-> | Hne].
  - apply bool_decide_eq_true. set_solver.
  - apply bool_decide_eq_false. set_solver.
Qed.

(** [allowed_file] accepts exactly the names that end in [.docx] when
    lowered. *)
Lemma allowed_file_endswith (filename : string) :
  allowed_file filename = PyStr.endswith (PyStr.lower filename) ".docx".
Proof.
  unfold allowed_file.
  destruct (PyStrFacts.rsplit1_cases "." filename)
    as [[Hno Hr] | [Hyes (a & b & Hr & Hb & Hs)]].
  - rewrite Hno. simpl. symmetry.
    apply (PyStrFacts.endswith_without "."); [reflexivity|].
    now rewrite PyStrFacts.contains_lower_dot.
  - rewrite Hyes, Hr. change ([a; b] !! 1%nat) with (Some b).
    cbv beta iota. rewrite in_allowed_extensions, andb_true_l.
    rewrite Hs. now rewrite PyStrFacts.endswith_docx_ext.
Qed.

(** C5. A [POST /upload] whose file part has a non-empty name that does not
    end, case-insensitively, in [.docx] (a name without any dot included) is
    answered with status 400 and a JSON error body; no job id is drawn, no
    file is saved, no worker thread is started and both tables are left as
    they were. *)
Theorem upload_rejects_non_docx (env : Env) (filename : string) (w : World) :
  filename <> "" ->
  PyStr.endswith (PyStr.lower filename) ".docx" = false ->
  snd (upload_document env (Some filename) w) =
    Ok (error_body "Invalid file type. Only .docx files are allowed.", 400%Z) /\
  uuids (fst (upload_document env (Some filename) w)) = uuids w /\
  threads (fst (upload_document env (Some filename) w)) = threads w /\
  saved_files (fst (upload_document env (Some filename) w)) = saved_files w /\
  processing_status (fst (upload_document env (Some filename) w)) = processing_status w /\
  analysis_results (fst (upload_document env (Some filename) w)) = analysis_results w.
Proof.
  intros Hne Hext.
  assert (Heq : String.eqb filename "" = false) by now apply String.eqb_neq.
  unfold upload_document, bind, try_except, now, ret.
  rewrite Heq, allowed_file_endswith, Hext, andb_false_r. simpl.
  repeat split; reflexivity.
Qed.

(** A name without extension and a name with another extension. *)
Lemma upload_rejects_non_docx_witness :
  snd (upload_document sample_env (Some "notes.txt") create_app) =
    Ok (error_body "Invalid file type. Only .docx files are allowed.", 400%Z) /\
  snd (upload_document sample_env (Some "docx") create_app) =
    Ok (error_body "Invalid file type. Only .docx files are allowed.", 400%Z).
Proof.
  split.
  - apply (upload_rejects_non_docx sample_env "notes.txt" create_app);
      [discriminate | reflexivity].
  - apply (upload_rejects_non_docx sample_env "docx" create_app);
      [discriminate | reflexivity].
Defined.

(** ** Status and results lookups *)

(** C4. [GET /status/{job_id}] answers 200 with the stored record of the
    job, and with the record [{'status': 'unknown', 'message': 'Job not
    found'}] when the table has no entry for it; the lookup changes
    nothing. *)
Theorem status_lookup (job_id : string) (w : World) :
  get_processing_status job_id w =
    (w, Ok (VDict match processing_status w !! job_id with
                  | Some r => r
                  | None => {[ "status" := VStr "unknown";
                               "message" := VStr "Job not found" ]}
                  end, 200%Z)).
Proof.
  unfold get_processing_status, get_status, try_except, bind, gets, ret.
  destruct (processing_status w !! job_id); reflexivity.
Qed.

(** ** Timestamps *)

Lemma is_digit_digit (n : nat) : is_digit (digit n) = true.
Proof.
  unfold digit.
  assert (H : (n mod 10 < 10)%nat) by (apply Nat.mod_upper_bound; lia).
  destruct (n mod 10)%nat as [|[|[|[|[|[|[|[|[|[|k]]]]]]]]]];
    try reflexivity; lia.
Qed.

Ltac name_digits :=
  repeat match goal with
  | |- context [digit ?n] =>
      let c := fresh "c" in
      let H := fresh "H" in
      pose proof (is_digit_digit n) as H;
      generalize dependent (digit n); intros c H
  end.

(** What [isoformat] prints passes the checker, whatever the reading of
    the clock. *)
Lemma iso_text_isoformat (d : datetime) : iso_text (isoformat d) = true.
Proof.
  destruct d as [y mo dd h mi s us]. unfold isoformat.
  cbn [year month day hour minute second microsecond]. unfold zpad.
  destruct (Nat.eqb us 0); name_digits; cbv -[is_digit];
    repeat match goal with
           | H : is_digit _ = true |- _ => rewrite H; clear H
           end;
    reflexivity.
Qed.

(** ** Invariants of the two tables *)

Section Preservation.

Variable P : World -> Prop.

Lemma preserves_ret {A} (a : A) : preserves P (ret a).
Proof. intros w H. exact H. Qed.

Lemma preserves_raise {A} (e : exn) : preserves P (@raise A e).
Proof. intros w H. exact H. Qed.

Lemma preserves_lift {A} (r : result A) : preserves P (lift r).
Proof. intros w H. exact H. Qed.

Lemma preserves_gets {A} (f : World -> A) : preserves P (gets f).
Proof. intros w H. exact H. Qed.

Lemma preserves_modify (f : World -> World) :
  (forall w, P w -> P (f w)) -> preserves P (modify f).
Proof. intros Hf w H. apply Hf, H. Qed.

Lemma preserves_bind {A B} (m : M A) (k : A -> M B) :
  preserves P m -> (forall a, preserves P (k a)) -> preserves P (bind m k).
Proof.
  intros Hm Hk w H. unfold bind. specialize (Hm w H).
  destruct (m w) as [w' [a | e]]; simpl in *; [apply Hk, Hm | exact Hm].
Qed.

Lemma preserves_try_except {A} (m : M A) (h : exn -> M A) :
  preserves P m -> (forall e, preserves P (h e)) ->
  preserves P (try_except m h).
Proof.
  intros Hm Hh w H. unfold try_except. specialize (Hm w H).
  destruct (m w) as [w' [a | e]]; simpl in *; [exact Hm | apply Hh, Hm].
Qed.

End Preservation.

Lemma tables_ok_same (w w' : World) :
  processing_status w' = processing_status w ->
  analysis_results w' = analysis_results w ->
  tables_ok w -> tables_ok w'.
Proof.
  intros Hs Hr [H1 H2]. split.
  - intros j r. rewrite Hs. apply H1.
  - intros j r. rewrite Hr. apply H2.
Qed.

Lemma status_record_shape (status message : string) (d : datetime) :
  status ∈ job_states ->
  status_shape (status_record status message (isoformat d)).
Proof.
  intros Hs. unfold status_shape, status_record.
  split; [|split; [|split]].
  - rewrite !dom_insert_L, dom_empty_L. set_solver.
  - exists status. split; [reflexivity | exact Hs].
  - exists message. reflexivity.
  - exists (isoformat d). split; [reflexivity | apply iso_text_isoformat].
Qed.

Lemma tables_ok_set_status (w : World) (job_id : string) (r : gmap string pyval) :
  status_shape r -> tables_ok w ->
  tables_ok (set_processing_status (insert job_id r) w).
Proof.
  intros Hr [H1 H2]. split; [|exact H2].
  intros j r'. simpl. destruct (decide (job_id = j)) as [-> | Hne].
  - rewrite lookup_insert_eq. intros [= <-]. exact Hr.
  - rewrite lookup_insert_ne by exact Hne. apply H1.
Qed.

Lemma size_insert_nonzero (k : string) (v : pyval) (r : gmap string pyval) :
  size (<[k := v]> r) <> 0%nat.
Proof.
  intros H. apply map_size_empty_inv in H.
  apply (insert_non_empty r k v). exact H.
Qed.

Lemma tables_ok_set_results (w : World) (job_id : string) (r : gmap string pyval) :
  size r <> 0%nat -> tables_ok w ->
  tables_ok (set_analysis_results (insert job_id r) w).
Proof.
  intros Hr [H1 H2]. split; [exact H1|].
  intros j r'. simpl. destruct (decide (job_id = j)) as [-> | Hne].
  - rewrite lookup_insert_eq. intros [= <-]. exact Hr.
  - rewrite lookup_insert_ne by exact Hne. apply H2.
Qed.

Create HintDb pres.

#[local] Hint Resolve preserves_ret preserves_raise preserves_lift
  preserves_gets size_insert_nonzero : pres.

Ltac pres_step :=
  first
    [ solve [eauto with pres]
    | solve [intros ? ?; assumption]
    | apply preserves_bind; [|intros ?]
    | apply preserves_try_except; [|intros ?]
    | match goal with
      | |- preserves _ (match ?x with _ => _ end) => destruct x
      | |- preserves _ (if ?b then _ else _) => destruct b
      end ].

Ltac pres := cbv zeta; repeat pres_step.

Section TablesOk.

Variable env : Env.

Lemma preserves_now : preserves tables_ok (now env).
Proof. intros w H. revert H. now apply tables_ok_same. Qed.

Lemma preserves_new_uuid : preserves tables_ok (new_uuid env).
Proof. intros w H. revert H. now apply tables_ok_same. Qed.

Lemma preserves_plain_modify (f : World -> World) :
  (forall w, processing_status (f w) = processing_status w) ->
  (forall w, analysis_results (f w) = analysis_results w) ->
  preserves tables_ok (modify f).
Proof.
  intros H1 H2 w H. revert H. apply tables_ok_same; [apply H1 | apply H2].
Qed.

Lemma preserves_store (job_id : string) (r : gmap string pyval) :
  size r <> 0%nat ->
  preserves tables_ok (modify (set_analysis_results (insert job_id r))).
Proof. intros Hr. apply preserves_modify. intros w. now apply tables_ok_set_results. Qed.

Lemma preserves_DocumentProcessor_update_status (job_id status message : string) :
  status ∈ job_states ->
  preserves tables_ok (DocumentProcessor_update_status env job_id status message).
Proof.
  intros Hs. unfold DocumentProcessor_update_status.
  apply preserves_bind; [apply preserves_now | intros t].
  apply preserves_modify. intros w.
  now apply tables_ok_set_status, status_record_shape.
Qed.

Lemma preserves_EventManager_update_status (job_id status message : string) :
  status ∈ job_states ->
  preserves tables_ok (EventManager_update_status env job_id status message).
Proof.
  intros Hs. unfold EventManager_update_status.
  apply preserves_bind; [apply preserves_now | intros t].
  apply preserves_modify. intros w.
  now apply tables_ok_set_status, status_record_shape.
Qed.

Lemma processing_state : "processing" ∈ job_states.
Proof. unfold job_states. set_solver. Qed.
Lemma completed_state : "completed" ∈ job_states.
Proof. unfold job_states. set_solver. Qed.
Lemma failed_state : "failed" ∈ job_states.
Proof. unfold job_states. set_solver. Qed.

Hint Resolve preserves_now preserves_new_uuid preserves_store
  preserves_DocumentProcessor_update_status
  preserves_EventManager_update_status
  processing_state completed_state failed_state : pres.

Lemma preserves_DocumentProcessor_init :
  preserves tables_ok (DocumentProcessor_init env).
Proof. unfold DocumentProcessor_init. pres. Qed.

Lemma preserves_analyze_paragraphs (file_path : string) :
  preserves tables_ok (_analyze_paragraphs env file_path).
Proof.
  unfold _analyze_paragraphs. pres.
Qed.

Hint Resolve preserves_DocumentProcessor_init preserves_analyze_paragraphs : pres.

Lemma preserves_process_document (file_path job_id : string) :
  preserves tables_ok (process_document env file_path job_id).
Proof.
  unfold process_document, results_record. pres.
Qed.

Lemma preserves_analyze_document_with_dify (data : gmap string pyval) :
  preserves tables_ok (analyze_document_with_dify env data).
Proof.
  unfold analyze_document_with_dify, dify_try. pres.
Qed.

Hint Resolve preserves_process_document
  preserves_analyze_document_with_dify : pres.

Lemma preserves_thread_body (file_path job_id : string) :
  preserves tables_ok (thread_body env file_path job_id).
Proof. unfold thread_body, thread_try. pres. Qed.

Lemma preserves_upload_document (req_file : option string) :
  preserves tables_ok (upload_document env req_file).
Proof.
  unfold upload_document, start_document_processing. pres.
Qed.

Lemma preserves_get_processing_status (job_id : string) :
  preserves tables_ok (get_processing_status job_id).
Proof. unfold get_processing_status, get_status. pres. Qed.

Lemma preserves_get_analysis_results (job_id : string) :
  preserves tables_ok (get_analysis_results job_id).
Proof. unfold get_analysis_results, get_results. pres. Qed.

Lemma preserves_update_paragraph (req_json : result pyval) :
  preserves tables_ok (update_paragraph env req_json).
Proof.
  unfold update_paragraph, update_paragraph_try, update_in_place,
    lookup_results, store_paragraphs.
  pres.
Qed.

(** Every step of the application keeps both tables well formed. *)
Lemma tables_ok_step (ev : event) (w : World) :
  tables_ok w -> tables_ok (step env ev w).
Proof.
  intros H. destruct ev as [f | j | j | r | n]; unfold step.
  - exact (preserves_upload_document f w H).
  - exact (preserves_get_processing_status j w H).
  - exact (preserves_get_analysis_results j w H).
  - exact (preserves_update_paragraph r w H).
  - destruct (threads w !! n) as [[file_path job_id]|]; [|exact H].
    apply preserves_thread_body. exact H.
Qed.

Lemma tables_ok_create_app : tables_ok create_app.
Proof.
  split; intros j r; simpl; rewrite lookup_empty; discriminate.
Qed.

Lemma tables_ok_run (evs : list event) (w : World) :
  tables_ok w -> tables_ok (run env evs w).
Proof.
  revert w. induction evs as [|ev evs IH]; intros w H; simpl; [exact H|].
  apply IH, tables_ok_step, H.
Qed.

End TablesOk.



(** C9. In every state the application reaches, [GET /analysis/{job_id}]
    answers 404 with [{'error': 'Analysis results not found'}] exactly when
    the results table has no entry for the job, and 200 with the stored
    record otherwise; the lookup changes nothing. *)
Theorem analysis_lookup (env : Env) (evs : list event) (job_id : string) :
  get_analysis_results job_id (run env evs create_app) =
    (run env evs create_app,
     Ok match analysis_results (run env evs create_app) !! job_id with
        | Some r => (VDict r, 200%Z)
        | None => (VDict {[ "error" := VStr "Analysis results not found" ]},
                   404%Z)
        end).
Proof.
  destruct (tables_ok_run env evs create_app tables_ok_create_app) as [_ Hr].
  unfold get_analysis_results, get_results, try_except, bind, gets, ret.
  destruct (analysis_results (run env evs create_app) !! job_id) as [r|] eqn:E;
    simpl; [|reflexivity].
  specialize (Hr job_id r E).
  destruct (size r) eqn:Es; [contradiction|]. reflexivity.
Qed.

(** ** The worker thread *)

Section Worker.

Variable env : Env.

Lemma DocumentProcessor_init_state (w : World) :
  fst (DocumentProcessor_init env w) = w.
Proof.
  unfold DocumentProcessor_init.
  destruct (spacy_load env) as [e|]; [|reflexivity].
  destruct (exn_cls e); reflexivity.
Qed.



(** The third-party step never raises. *)
Lemma dify_returns (data : gmap string pyval) (w : World) :
  exists r, snd (analyze_document_with_dify env data w) = Ok r.
Proof.
  unfold analyze_document_with_dify.
  destruct (DifyService_headers env) as [headers|]; [|eexists; reflexivity].
  unfold bind, now, try_except.
  destruct (dify_try env headers data (tick w)) as [w' [r | e]];
    [eexists; reflexivity|].
  destruct (exn_cls e); eexists; reflexivity.
Qed.




End Worker.




(** ** The overall analysis *)

Lemma Qltb_true (x y : Q) : Qltb x y = true <-> (x < y)%Q.
Proof.
  unfold Qltb. rewrite negb_true_iff. split.
  - intros H. apply Qnot_le_lt. intros Hle.
    apply Qle_bool_iff in Hle. congruence.
  - intros H. destruct (Qle_bool y x) eqn:E; [|reflexivity].
    apply Qle_bool_iff in E. exfalso. exact (Qlt_not_le _ _ H E).
Qed.

Lemma Qltb_false (x y : Q) : Qltb x y = false <-> (y <= x)%Q.
Proof.
  unfold Qltb. rewrite negb_false_iff. apply Qle_bool_iff.
Qed.




(** What the [try] block returns when it returns. *)
Lemma overall_try_inv (l : list pyval) (a : gmap string pyval) :
  overall_try l = Ok a ->
  exists tw avg te,
    a = overall_record (length l) tw avg te (py_min 100 (py_max 0 avg)).
Proof.
  unfold overall_try, rbind. intros H.
  destruct (py_sum _ l 0) as [tw|]; [|discriminate].
  destruct l as [|p l'].
  - destruct (py_sum _ [] 0) as [te|]; [|discriminate].
    injection H as <-. now exists tw, 0%Q, te.
  - destruct (py_sum _ (p :: l') 0) as [s|]; [|discriminate].
    destruct (py_sum _ (p :: l') 0) as [te|]; [|discriminate].
    injection H as <-. eexists tw, _, te. reflexivity.
Qed.


(** A record without its figures takes the fallback path; a readability
    above 100 is clamped. *)
Example overall_fallback :
  overall_try [VDict ∅] = Raise (Exn KeyError "'word_count'") /\
  _generate_overall_analysis [VDict ∅] !! "overall_score" = Some (VNum 0).
Proof. split; reflexivity. Qed.

Example overall_clamped :
  let l := [paragraph_dict (Paragraph 0 "Go." 1 (121 # 1) [] [])] in
  _generate_overall_analysis l !! "average_readability" = Some (VNum (121 # 1)) /\
  _generate_overall_analysis l !! "overall_score" = Some (VNum 100).
Proof. split; reflexivity. Qed.

(** Sums over the records of typed paragraphs. *)
Lemma py_sum_fields (f : pyval -> result Q) (g : paragraph -> Q)
    (l : list paragraph) (acc : Q) :
  (forall p, f (paragraph_dict p) = Ok (g p)) ->
  exists q, py_sum f (map paragraph_dict l) acc = Ok q /\
            (q == acc + Qsum (map g l))%Q.
Proof.
  intros Hf. revert acc. induction l as [|p l IH]; intros acc.
  - exists acc. split; [reflexivity|]. simpl. ring.
  - destruct (IH (acc + g p)%Q) as (q & Hq & Heq).
    exists q. split.
    + change (map paragraph_dict (p :: l))
        with (paragraph_dict p :: map paragraph_dict l).
      unfold py_sum; fold py_sum. rewrite Hf. exact Hq.
    + rewrite Heq. simpl. ring.
Qed.

Lemma Qsum_nat (g : paragraph -> nat) (l : list paragraph) :
  (Qsum (map (fun p => inject_Z (Z.of_nat (g p))) l)
   == inject_Z (Z.of_nat (list_sum (map g l))))%Q.
Proof.
  induction l as [|p l IH]; simpl; [reflexivity|].
  rewrite IH, Nat2Z.inj_add, inject_Z_plus. reflexivity.
Qed.

(** C2. For the records of any list of paragraphs the overall analysis
    holds: as [average_readability] the sum of the readability values
    divided by the number of paragraphs, 0 for the empty list; as
    [total_words] the sum of the word counts; as [total_entities] the sum
    of the lengths of the entity lists; as [total_paragraphs] the length
    of the list. *)
Theorem overall_analysis_figures (l : list paragraph) :
  let o := _generate_overall_analysis (map paragraph_dict l) in
  (exists avg, o !! "average_readability" = Some (VNum avg) /\
               (avg == spec_average l)%Q) /\
  (exists tw, o !! "total_words" = Some (VNum tw) /\
              (tw == inject_Z (Z.of_nat (spec_total_words l)))%Q) /\
  (exists te, o !! "total_entities" = Some (VNum te) /\
              (te == inject_Z (Z.of_nat (spec_total_entities l)))%Q) /\
  o !! "total_paragraphs" = Some (VNat (length l)).
Proof.
  intros o. subst o. unfold _generate_overall_analysis, overall_try.
  destruct (py_sum_fields
              (fun p => v <~ py_getitem p "word_count" ;; py_number v)
              (fun p => inject_Z (Z.of_nat (p_word_count p))) l 0)
    as (tw & Htw & Etw); [reflexivity|].
  destruct (py_sum_fields
              (fun p => v <~ py_getitem p "readability" ;; py_number v)
              p_readability l 0)
    as (s & Hs & Es); [reflexivity|].
  destruct (py_sum_fields
              (fun p => v <~ py_getitem p "entities" ;;
                        n <~ py_len v ;; Ok (inject_Z (Z.of_nat n)))
              (fun p => inject_Z (Z.of_nat (length (p_entities p)))) l 0)
    as (te & Hte & Ete).
  { intros p. unfold paragraph_dict, analysis_record, rbind, py_getitem.
    rewrite lookup_insert_ne by discriminate.
    rewrite lookup_insert_ne by discriminate.
    rewrite lookup_insert_ne by discriminate.
    rewrite lookup_insert_ne by discriminate.
    rewrite lookup_insert_eq. unfold py_len. now rewrite length_map. }
  rewrite Htw, Hte. unfold rbind at 1.
  assert (Etw' : (tw == inject_Z (Z.of_nat (spec_total_words l)))%Q).
  { rewrite Etw, Qsum_nat. unfold spec_total_words. ring. }
  assert (Ete' : (te == inject_Z (Z.of_nat (spec_total_entities l)))%Q).
  { rewrite Ete, Qsum_nat. unfold spec_total_entities. ring. }
  destruct l as [|p l'].
  - simpl. repeat split; eexists; (split; [reflexivity|]); try assumption.
    reflexivity.
  - change (map paragraph_dict (p :: l'))
      with (paragraph_dict p :: map paragraph_dict l') in *.
    rewrite Hs. unfold rbind.
    split; [|split; [|split]].
    + eexists. split; [reflexivity|]. unfold spec_average.
      rewrite Es, Qplus_0_l. rewrite !length_cons, length_map. reflexivity.
    + exists tw. split; [reflexivity | exact Etw'].
    + exists te. split; [reflexivity | exact Ete'].
    + rewrite !length_cons, length_map. reflexivity.
Qed.

(** ** Paragraph records *)

Section Paragraphs.

Variable env : Env.

Lemma passive_not_short (n : nat) : passive_comment n <> short_comment.
Proof. unfold passive_comment, short_comment. intros [= H]. Qed.

Lemma passive_not_difficult (n : nat) : passive_comment n <> difficult_comment.
Proof. unfold passive_comment, difficult_comment. intros [= H]. Qed.

(** The record of one paragraph. *)
Lemma analyze_single_paragraph_ok (text : string) (i : nat) :
  record_ok env (i, text) (VDict (_analyze_single_paragraph env text (Z.of_nat i))).
Proof.
  unfold record_ok, _analyze_single_paragraph, basic_analysis.
  cbn [fst snd].
  destruct (nlp env text) as [doc | e1].
  - destruct (flesch_reading_ease env text) as [q | e2].
    + eexists _, _, _, _. split; [reflexivity|].
      rewrite PyStrFacts.split_length.
      split; [reflexivity|]. split; [reflexivity|]. split; [reflexivity|].
      split; [reflexivity|]. split; [reflexivity|]. split; [reflexivity|].
      split; [reflexivity|]. split; [reflexivity|]. split.
      * intros Hpos. apply Nat.ltb_lt in Hpos. rewrite Hpos.
        rewrite !elem_of_app. right. right. apply list_elem_of_singleton.
        reflexivity.
      * intros Hzero n. rewrite Hzero. cbn [Nat.ltb Nat.leb].
        rewrite app_nil_r. intros Hin. apply elem_of_app in Hin as [Hin | Hin].
        -- match type of Hin with
           | context [if ?b then _ else _] => destruct b
           end; [|now apply elem_of_nil in Hin].
           apply list_elem_of_singleton in Hin.
           exact (passive_not_short n Hin).
        -- destruct (Qltb q 30); [|now apply elem_of_nil in Hin].
           apply list_elem_of_singleton in Hin.
           exact (passive_not_difficult n Hin).
    + eexists _, _, _, _. split; [reflexivity|].
      rewrite PyStrFacts.split_length. repeat (split; [reflexivity|]).
      reflexivity.
  - eexists _, _, _, _. split; [reflexivity|].
    rewrite PyStrFacts.split_length. repeat (split; [reflexivity|]).
    reflexivity.
Qed.

Lemma analyze_from_ok (i : nat) (paragraphs : list string) :
  Forall2 (record_ok env)
    (List.filter (fun it => PyStr.has_text (snd it)) (numbered_from i paragraphs))
    (analyze_from env i paragraphs).
Proof.
  revert i. induction paragraphs as [|text rest IH]; intros i.
  - constructor.
  - cbn [numbered_from List.filter analyze_from snd].
    rewrite PyStrFacts.strip_truthy.
    destruct (PyStr.has_text text).
    + constructor; [apply analyze_single_paragraph_ok | apply IH].
    + apply IH.
Qed.

(** C1, as the code has it. When the document opens, the pipeline returns
    one record for each paragraph that has a character which is not
    whitespace, in order. The record holds the position and the text of
    the paragraph and the number of its whitespace-separated tokens; when
    the NLP model and the readability library succeed on the text it holds
    the readability score, the entities found and, exactly when a token
    with dependency [nsubjpass] is present, the passive-voice comment;
    otherwise it holds readability 0, no entity and the error comment. *)
Theorem paragraph_records (path : string) (w : World) (paragraphs : list string) :
  Document env path = Ok paragraphs ->
  exists l,
    snd (_analyze_paragraphs env path w) = Ok l /\
    Forall2 (record_ok env) (analysed_paragraphs paragraphs) l.
Proof.
  intros Hdoc. exists (analyze_from env 0 paragraphs). split.
  - unfold _analyze_paragraphs, bind, modify, lift, ret. rewrite Hdoc.
    reflexivity.
  - apply analyze_from_ok.
Qed.

End Paragraphs.

(** The sample document has three paragraphs, one of them blank. *)
Lemma paragraph_records_witness :
  exists l,
    snd (_analyze_paragraphs sample_env "a.docx" create_app) = Ok l /\
    length l = 2%nat.
Proof.
  destruct (paragraph_records sample_env "a.docx" create_app
              ["Hello world."; "   "; "The ball was thrown by John in Paris."]
              eq_refl) as (l & Hl & Hrec).
  exists l. split; [exact Hl|].
  apply Forall2_length in Hrec. rewrite <- Hrec. reflexivity.
Defined.

(** C1 as stated fails: a document with a blank paragraph gets fewer
    records than it has paragraphs. *)
Lemma one_record_per_paragraph_fails :
  ~ (forall env path w paragraphs,
       Document env path = Ok paragraphs ->
       exists l,
         snd (_analyze_paragraphs env path w) = Ok l /\
         length l = length paragraphs).
Proof.
  intros H.
  destruct (H sample_env "a.docx" create_app
              ["Hello world."; "   "; "The ball was thrown by John in Paris."]
              eq_refl) as (l & Hl & Hlen).
  assert (Hrun : exists l',
             snd (_analyze_paragraphs sample_env "a.docx" create_app) = Ok l' /\
             length l' = 2%nat).
  { eexists. split; [vm_compute; reflexivity | reflexivity]. }
  destruct Hrun as (l' & Hl' & Hlen').
  rewrite Hl in Hl'. injection Hl' as <-.
  rewrite Hlen in Hlen'. discriminate Hlen'.
Qed.

(** ** Updating a paragraph *)

Lemma norm_index_negative (n : nat) (i : Z) :
  (- Z.of_nat n <= i < 0)%Z ->
  norm_index n i = Some (Z.to_nat (Z.of_nat n + i)).
Proof.
  intros [H1 H2]. unfold norm_index.
  destruct (Z.leb_spec 0 i); [lia|].
  destruct (Z.leb_spec (- Z.of_nat n) i); [reflexivity | lia].
Qed.

Lemma size_lookup_nonzero (m : gmap string pyval) (k : string) (v : pyval) :
  m !! k = Some v -> size m <> 0%nat.
Proof.
  intros H Hs. apply map_size_empty_inv in Hs. subst m.
  rewrite lookup_empty in H. discriminate.
Qed.

Lemma truthy_nonempty (s : string) : s <> "" -> PyStr.truthy s = true.
Proof.
  intros H. unfold PyStr.truthy. apply negb_true_iff. now apply String.eqb_neq.
Qed.

(** The branch taken after the bounds check, on a negative id. *)
Lemma update_in_place_negative (env : Env) (w : World) (j : string)
    (results : gmap string pyval) (l : list pyval) (pid : Z)
    (d : gmap string pyval) (old new_text : string) :
  spacy_load env = None ->
  (- Z.of_nat (length l) <= pid < 0)%Z ->
  l !! Z.to_nat (Z.of_nat (length l) + pid) = Some (VDict d) ->
  d !! "text" = Some (VStr old) ->
  let k := Z.to_nat (Z.of_nat (length l) + pid) in
  let updated := _analyze_single_paragraph env new_text pid in
  update_in_place env j results (VList l) pid (VStr new_text) w =
    (tick (set_analysis_results
             (insert j (<["paragraph_analyses" :=
                           VList (<[k := VDict (updated ∪ <["text" := VStr new_text]> d)]> l)]>
                          results))
             (set_analysis_results
                (insert j (<["paragraph_analyses" :=
                              VList (<[k := VDict (<["text" := VStr new_text]> d)]> l)]>
                             results)) w)),
     Ok (VDict (<["success" := VBool true]>
                  (<["updated_analysis" := VDict updated]> ∅)), 200%Z)).
Proof.
  intros Hload Hpid Hk Hd k updated. subst k updated.
  unfold update_in_place, py_list_item.
  rewrite (norm_index_negative _ _ Hpid).
  unfold bind at 1. unfold lift at 1. rewrite Hk.
  cbv beta iota. cbn [fst snd].
  unfold py_getitem. rewrite Hd.
  unfold bind, lift, store_paragraphs, modify, DocumentProcessor_init, now, ret, analyze_value, py_len.
  rewrite Hload. reflexivity.
Qed.

(** C8. A [POST /api/update-paragraph] whose [paragraph_id] is negative
    and not below minus the number of stored paragraph analyses passes the
    check [paragraph_id < len(paragraph_analyses)]: the handler answers 200
    with [success], and the record counted from the end of the list now
    holds the new text and the negative id as its [paragraph_index]. *)
Theorem update_paragraph_negative_index (env : Env) (w : World) (j : string)
    (results : gmap string pyval) (l : list pyval) (pid : Z)
    (d : gmap string pyval) (old new_text : string) :
  spacy_load env = None ->
  j <> "" -> new_text <> "" ->
  analysis_results w !! j = Some results ->
  results !! "paragraph_analyses" = Some (VList l) ->
  (- Z.of_nat (length l) <= pid < 0)%Z ->
  l !! Z.to_nat (Z.of_nat (length l) + pid) = Some (VDict d) ->
  d !! "text" = Some (VStr old) ->
  let req := Ok (VDict {[ "paragraph_id" := VInt pid;
                          "new_text" := VStr new_text;
                          "job_id" := VStr j ]}) in
  let k := Z.to_nat (Z.of_nat (length l) + pid) in
  let updated := _analyze_single_paragraph env new_text pid in
  (pid <? Z.of_nat (length l))%Z = true /\
  snd (update_paragraph env req w) =
    Ok (VDict {[ "success" := VBool true;
                 "updated_analysis" := VDict updated ]}, 200%Z) /\
  exists d',
    analysis_results (fst (update_paragraph env req w)) !! j =
      Some (<["paragraph_analyses" := VList (<[k := VDict d']> l)]> results) /\
    d' !! "text" = Some (VStr new_text) /\
    d' !! "paragraph_index" = Some (VInt pid).
Proof.
  intros Hload Hj Hnew Hres Hpa Hpid Hk Hd req k updated.
  assert (Hlt : (pid <? Z.of_nat (length l))%Z = true) by (apply Z.ltb_lt; lia).
  split; [exact Hlt|].
  assert (Htry : update_paragraph_try env
                   (VDict {[ "paragraph_id" := VInt pid;
                             "new_text" := VStr new_text;
                             "job_id" := VStr j ]}) (tick w) =
                 update_in_place env j results (VList l) pid (VStr new_text) (tick w)).
  { unfold update_paragraph_try.
    replace (py_truthy (VDict {[ "paragraph_id" := VInt pid;
                             "new_text" := VStr new_text;
                             "job_id" := VStr j ]})) with true by reflexivity.
    cbv beta iota. unfold negb at 1. cbv beta iota.
    unfold bind at 1. unfold lift at 1.
    replace (py_get _ "paragraph_id") with (Ok (VInt pid)) by reflexivity.
    cbv beta iota.
    unfold bind at 1. unfold lift at 1.
    replace (py_get _ "new_text") with (Ok (VStr new_text)) by reflexivity.
    cbv beta iota.
    unfold bind at 1. unfold lift at 1.
    replace (py_get _ "job_id") with (Ok (VStr j)) by reflexivity.
    cbv beta iota.
    unfold py_truthy at 1 2. rewrite (truthy_nonempty _ Hnew), (truthy_nonempty _ Hj).
    unfold py_is_none, VInt at 1. cbv beta iota. cbn [negb andb].
    unfold py_int, VInt. cbn [Qnum Qden inject_Z]. rewrite Z.quot_1_r.
    unfold bind at 1. unfold lookup_results, gets.
    cbn [analysis_results tick]. rewrite Hres.
    cbv beta iota.
    unfold py_truthy.
    destruct (size results) eqn:Es;
      [exfalso; exact (size_lookup_nonzero _ _ _ Hpa Es)|].
    cbn [Nat.eqb negb].
    unfold bind at 1, lift at 1, py_getitem. rewrite Hpa. cbv beta iota.
    unfold bind at 1, lift at 1, py_len. cbv beta iota.
    rewrite Hlt. reflexivity. }
  assert (Hrun : update_paragraph env req w =
    (tick (set_analysis_results
             (insert j (<["paragraph_analyses" :=
                           VList (<[k := VDict (updated ∪ <["text" := VStr new_text]> d)]> l)]>
                          results))
             (set_analysis_results
                (insert j (<["paragraph_analyses" :=
                              VList (<[k := VDict (<["text" := VStr new_text]> d)]> l)]>
                             results)) (tick w))),
     Ok (VDict (<["success" := VBool true]>
                  (<["updated_analysis" := VDict updated]> ∅)), 200%Z))).
  { subst req. unfold update_paragraph, try_except, bind, lift, now.
    cbv beta iota. rewrite Htry.
    rewrite (update_in_place_negative env (tick w) j results l pid d old
               new_text Hload Hpid Hk Hd).
    reflexivity. }
  rewrite Hrun. cbn [fst snd].
  split; [reflexivity|].
  exists (updated ∪ <["text" := VStr new_text]> d).
  split; [|split].
  - cbn [analysis_results tick set_analysis_results]. apply lookup_insert_eq.
  - apply lookup_union_Some_l. subst updated.
    unfold _analyze_single_paragraph, basic_analysis.
    destruct (nlp env new_text);
      [destruct (flesch_reading_ease env new_text)|]; reflexivity.
  - apply lookup_union_Some_l. subst updated.
    unfold _analyze_single_paragraph, basic_analysis.
    destruct (nlp env new_text);
      [destruct (flesch_reading_ease env new_text)|]; reflexivity.
Qed.

(** Paragraph id -1 on the job of the sample run: the last record is
    rewritten. *)
Lemma update_paragraph_negative_index_witness :
  snd (update_paragraph sample_env
         (Ok (VDict {[ "paragraph_id" := VInt (-1);
                       "new_text" := VStr "New text was here.";
                       "job_id" := VStr "job-0" ]}))
         (run sample_env [PostUpload (Some "a.docx"); RunThread 0] create_app))
  = Ok (VDict {[ "success" := VBool true;
                 "updated_analysis" :=
                   VDict (_analyze_single_paragraph sample_env
                            "New text was here." (-1)) ]}, 200%Z).
Proof.
  refine (proj1 (proj2
    (update_paragraph_negative_index sample_env
       (run sample_env [PostUpload (Some "a.docx"); RunThread 0] create_app)
       "job-0" _ _ (-1) _ _ "New text was here."
       eq_refl _ _ _ _ _ _ _))).
  - discriminate.
  - discriminate.
  - refine (found_default _ ∅ _). vm_compute. reflexivity.
  - refine (found_list_value _ _). vm_compute. reflexivity.
  - vm_compute. split; [discriminate | reflexivity].
  - refine (found_dict_value _ _). vm_compute. reflexivity.
  - vm_compute. reflexivity.
Defined.

(** ** Further facts about the handlers *)

(** The [try] block of the worker thread raises exactly when the model
    cannot be loaded or the document cannot be opened: the third-party step
    never fails a job. *)
Lemma thread_try_raises (env : Env) (file_path job_id : string) (w : World) (e : exn) :
  snd (thread_try env file_path job_id w) = Raise e <->
  (exists e0,
     spacy_load env = Some e0 /\
     e = match exn_cls e0 with
         | OSError =>
             Exn RuntimeError
               "spaCy model not loaded. Please install the required model."
         | _ => e0
         end) \/
  (spacy_load env = None /\ Document env file_path = Raise e).
Proof.
  unfold thread_try, DocumentProcessor_init, process_document,
    _analyze_paragraphs, DocumentProcessor_update_status, bind, try_except,
    now, modify, lift, ret, raise.
  destruct (spacy_load env) as [e0|].
  - split.
    + intros H. left. exists e0. split; [reflexivity|].
      destruct (exn_cls e0); simpl in H; congruence.
    + intros [(e1 & [= <-] & ->) | [H _]]; [|discriminate].
      destruct (exn_cls e0); reflexivity.
  - cbn [fst snd]. destruct (Document env file_path) as [ps | e1].
    + cbv beta iota.
      pose proof (dify_returns env) as Hd.
      match goal with
      | |- context [analyze_document_with_dify env ?d ?w'] =>
          destruct (Hd d w') as [r Hr];
          destruct (analyze_document_with_dify env d w') as [w2 [r' | e2]]
      end; [|discriminate Hr].
      cbn [snd]. split; [discriminate|].
      intros [(e0 & H & _) | [_ H]]; discriminate.
    + cbv beta iota. cbn [snd]. split.
      * intros [= <-]. right. split; reflexivity.
      * intros [(e0 & H & _) | [_ [= <-]]]; [discriminate | reflexivity].
Qed.

(** A name in capitals with the right extension is accepted: a job id is
    drawn and a thread is started. *)
Example upload_accepts_docx :
  threads (fst (upload_document sample_env (Some "Report.DOCX") create_app))
    = [("app/static/uploads/job-0_Report.DOCX", "job-0")] /\
  uuids (fst (upload_document sample_env (Some "Report.DOCX") create_app)) = 1%nat.
Proof. split; vm_compute; reflexivity. Qed.

(** On the sample run, which stores two paragraph analyses: an id at or
    above the length is rejected with 400, an id below minus the length
    ends in the [except] clause with 500. *)
Example update_paragraph_out_of_range :
  let w := run sample_env [PostUpload (Some "a.docx"); RunThread 0] create_app in
  let req pid :=
    Ok (VDict {[ "paragraph_id" := VInt pid; "new_text" := VStr "New text.";
                 "job_id" := VStr "job-0" ]}) in
  snd (update_paragraph sample_env (req 2%Z) w)
    = Ok (error_body "Invalid paragraph ID", 400%Z) /\
  snd (update_paragraph sample_env (req (-3)%Z) w)
    = Ok (error_body "Internal server error", 500%Z).
Proof. split; vm_compute; reflexivity. Qed.

(** * Further properties of the handlers and services *)

(** ** Upload *)

(** A request without a file part, or whose file part has an empty name,
    is answered with 400; nothing but the clock has moved. *)
Theorem upload_without_file (env : Env) (req_file : option string) (w : World) :
  req_file = None \/ req_file = Some "" ->
  upload_document env req_file w =
    (tick w,
     Ok (error_body (match req_file with
                     | None => "No file provided"
                     | Some _ => "No file selected"
                     end), 400%Z)).
Proof. intros [-> | ->]; reflexivity. Qed.

Lemma upload_without_file_witness :
  snd (upload_document sample_env None create_app)
    = Ok (error_body "No file provided", 400%Z).
Proof.
  rewrite (upload_without_file sample_env None create_app (or_introl eq_refl)).
  reflexivity.
Defined.

(** An accepted upload: the name ends in [.docx] when lowered and the file
    can be written. The answer is 200 with the fresh job id; one worker
    thread is started for the saved path; neither table is written, so the
    status of the job is what it was before (unknown for a new id) until
    the thread has run. *)
Theorem upload_starts_job (env : Env) (filename : string) (w : World) :
  filename <> "" ->
  PyStr.endswith (PyStr.lower filename) ".docx" = true ->
  let job_id := uuid4 env (uuids w) in
  let file_path :=
    UPLOAD_FOLDER env ++ "/" ++ job_id ++ "_" ++ secure_filename env filename in
  file_save env file_path = None ->
  let w' := fst (upload_document env (Some filename) w) in
  snd (upload_document env (Some filename) w) =
    Ok (VDict {[ "job_id" := VStr job_id;
                 "message" := VStr "Document uploaded and processing started";
                 "status" := VStr "processing" ]}, 200%Z) /\
  threads w' = (threads w ++ [(file_path, job_id)])%list /\
  saved_files w' = (saved_files w ++ [file_path])%list /\
  uuids w' = S (uuids w) /\
  processing_status w' = processing_status w /\
  analysis_results w' = analysis_results w /\
  snd (get_processing_status job_id w') = snd (get_processing_status job_id w).
Proof.
  intros Hne Hext job_id file_path Hsave w'. subst w'.
  assert (Heq : String.eqb filename "" = false) by now apply String.eqb_neq.
  assert (Hrun : upload_document env (Some filename) w =
            (tick (add_thread (file_path, job_id)
                     (add_saved_file file_path (next_uuid (tick w)))),
             Ok (VDict {[ "job_id" := VStr job_id;
                          "message" := VStr "Document uploaded and processing started";
                          "status" := VStr "processing" ]}, 200%Z))).
  { unfold upload_document, bind, try_except, now, new_uuid, modify,
      start_document_processing, ret.
    rewrite Heq, allowed_file_endswith, Hext.
    unfold PyStr.truthy. rewrite Heq.
    cbn [negb andb fst snd uuids tick]. fold job_id. fold file_path.
    rewrite Hsave. reflexivity. }
  rewrite Hrun. cbn [fst snd].
  repeat (split; [reflexivity|]). reflexivity.
Qed.

Lemma upload_starts_job_witness :
  threads (fst (upload_document sample_env (Some "Thesis.Docx") create_app))
    = [("app/static/uploads/job-0_Thesis.Docx", "job-0")].
Proof.
  exact (proj1 (proj2 (upload_starts_job sample_env "Thesis.Docx" create_app
                         ltac:(discriminate) eq_refl eq_refl))).
Defined.

(** An accepted name whose file cannot be written: the answer is 500 with
    the text of the error; the job id is spent, but no thread is started
    and no file is recorded. *)
Theorem upload_save_failure (env : Env) (filename : string) (w : World) (e : exn) :
  filename <> "" ->
  PyStr.endswith (PyStr.lower filename) ".docx" = true ->
  file_save env (UPLOAD_FOLDER env ++ "/" ++ uuid4 env (uuids w) ++ "_"
                 ++ secure_filename env filename) = Some e ->
  let w' := fst (upload_document env (Some filename) w) in
  snd (upload_document env (Some filename) w) =
    Ok (error_body ("Upload failed: " ++ exn_text e), 500%Z) /\
  threads w' = threads w /\
  saved_files w' = saved_files w /\
  uuids w' = S (uuids w).
Proof.
  intros Hne Hext Hsave w'. subst w'.
  assert (Heq : String.eqb filename "" = false) by now apply String.eqb_neq.
  assert (Hrun : upload_document env (Some filename) w =
            (tick (next_uuid (tick w)),
             Ok (error_body ("Upload failed: " ++ exn_text e), 500%Z))).
  { unfold upload_document, bind, try_except, now, new_uuid, modify,
      start_document_processing, ret, raise.
    rewrite Heq, allowed_file_endswith, Hext.
    unfold PyStr.truthy. rewrite Heq.
    cbn [negb andb fst snd uuids tick].
    rewrite Hsave. reflexivity. }
  rewrite Hrun. cbn [fst snd]. repeat (split; [reflexivity|]). reflexivity.
Qed.

Lemma upload_save_failure_witness :
  snd (upload_document
         (make_env None (Ok sample_document)
            (Some (Exn OSError "No space left on device"))
            (Raise (Exn Timeout "timed out")) None)
         (Some "a.docx") create_app)
  = Ok (error_body "Upload failed: No space left on device", 500%Z).
Proof.
  exact (proj1 (upload_save_failure
                  (make_env None (Ok sample_document)
                     (Some (Exn OSError "No space left on device"))
                     (Raise (Exn Timeout "timed out")) None)
                  "a.docx" create_app (Exn OSError "No space left on device")
                  ltac:(discriminate) eq_refl eq_refl)).
Defined.

(** ** The third-party step *)

Module StripFacts.
Import PyStr.







End StripFacts.




(** The answer of four lines above holds two suggestions. *)
Example dify_response_sample :
  _process_dify_response
    (VDict {[ "answer" := VStr ("Summary" ++ nl ++ " - Shorten the intro.  "
                                ++ nl ++ "-" ++ nl ++ "- Use active voice") ]})
    !! "suggestions"
  = Some (VList [VStr "Shorten the intro."; VStr "Use active voice"]).
Proof. vm_compute. reflexivity. Qed.

(** A response that is not an object, or whose answer is not a text, gives
    no suggestion and the fixed [raw_response]; an object without an answer
    gives no suggestion and an empty [raw_response]. *)
Theorem dify_response_fallback (resp : pyval) :
  match resp with
  | VDict d =>
      match d !! "answer" with
      | Some (VStr _) => True
      | Some _ =>
          _process_dify_response resp =
            {[ "suggestions" := VList [];
               "raw_response" := VStr "Error processing response" ]}
      | None =>
          _process_dify_response resp =
            {[ "suggestions" := VList []; "raw_response" := VStr "" ]}
      end
  | _ =>
      _process_dify_response resp =
        {[ "suggestions" := VList [];
           "raw_response" := VStr "Error processing response" ]}
  end.
Proof.
  destruct resp as [| b | q | s | l | d]; try reflexivity.
  unfold _process_dify_response.
  destruct (d !! "answer") as [[| b | q | s | l | d']|];
    first [exact I | reflexivity].
Qed.

Section Dify.

Variable env : Env.

Lemma headers_configured (key : string) :
  DIFY_API_KEY env = Some key -> key <> "" ->
  exists headers, DifyService_headers env = Some headers.
Proof.
  intros Hk Hne. unfold DifyService_headers. rewrite Hk.
  unfold PyStr.truthy.
  replace (String.eqb key "") with false
    by (symmetry; now apply String.eqb_neq).
  eexists. reflexivity.
Qed.

Lemma stored_paragraphs (data : gmap string pyval) (ps : list pyval) :
  data !! "paragraph_analyses" = Some (VList ps) ->
  py_iter (default (VList []) (data !! "paragraph_analyses")) = Ok ps.
Proof. now intros ->. Qed.

(** Collecting the texts fails only with a [KeyError] or a [TypeError]. *)
Lemma paragraph_texts_raise (ps : list pyval) (e : exn) :
  paragraph_texts ps = Raise e ->
  exn_cls e = KeyError \/ exn_cls e = TypeError.
Proof.
  revert e. induction ps as [|p ps IH]; intros e; [discriminate|].
  cbn [paragraph_texts]. unfold rbind, py_getitem.
  destruct p as [| b | q | s | l | d]; try (intros [= <-]; now right).
  destruct (d !! "text") as [t|]; [|intros [= <-]; now left].
  destruct (paragraph_texts ps) as [ts | e']; [|intros [= <-]; now apply IH].
  destruct t; intros [= <-]; now right.
Qed.

Ltac shape_leaf :=
  cbn [fst snd];
  split;
  [ eexists _, _; split; reflexivity
  | split; [first [left; reflexivity | right; reflexivity]
           | split; reflexivity] ].

Lemma dify_outcome (data : gmap string pyval) (w : World) :
  let w' := fst (analyze_document_with_dify env data w) in
  (exists r l,
     snd (analyze_document_with_dify env data w) = Ok r /\
     r !! "suggestions" = Some (VList l)) /\
  (http_posts w' = http_posts w \/
   http_posts w' =
     (http_posts w ++ [(DIFY_API_URL env ++ "/chat-messages")%string])%list) /\
  processing_status w' = processing_status w /\
  analysis_results w' = analysis_results w.
Proof.
  unfold analyze_document_with_dify.
  destruct (DifyService_headers env) as [headers|]; [|shape_leaf].
  unfold dify_try, bind, try_except, now, modify, lift, ret, raise.
  destruct (py_iter _) as [ps | e1];
    [|destruct (exn_cls e1); shape_leaf].
  destruct (paragraph_texts ps) as [texts | e2];
    [|destruct (exn_cls e2); shape_leaf].
  destruct (requests_post env _ _) as [resp | e3];
    [|destruct (exn_cls e3); shape_leaf].
  destruct (status_code resp =? 200)%Z; [|shape_leaf].
  destruct (resp_json resp) as [body | e4];
    [|destruct (exn_cls e4); shape_leaf].
  unfold _process_dify_response.
  destruct body as [| b | q | s | l | d]; try shape_leaf.
  destruct (default (VStr "") (d !! "answer")); shape_leaf.
Qed.


(** With a key, once the paragraph texts are collected: a request that
    raises is turned into an error record, by the kind of failure, after
    exactly one request and without another try. *)
Theorem dify_request_failure (key : string) (data : gmap string pyval)
    (ps : list pyval) (texts : list string) (e : exn) (w : World) :
  DIFY_API_KEY env = Some key -> key <> "" ->
  data !! "paragraph_analyses" = Some (VList ps) ->
  paragraph_texts ps = Ok texts ->
  let url := DIFY_API_URL env ++ "/chat-messages" in
  requests_post env url
    (dify_payload (dify_prompt (PyStr.join (nl ++ nl) texts))) = Raise e ->
  snd (analyze_document_with_dify env data w) =
    Ok {[ "error" := VStr match exn_cls e with
                          | Timeout => "API request timed out"
                          | RequestException => "Network error: " ++ exn_text e
                          | _ => exn_text e
                          end;
          "suggestions" := VList [] ]} /\
  http_posts (fst (analyze_document_with_dify env data w)) =
    (http_posts w ++ [url])%list.
Proof.
  intros Hk Hne Hd Hts url Hpost.
  destruct (headers_configured key Hk Hne) as [headers Hh].
  unfold analyze_document_with_dify. rewrite Hh.
  unfold dify_try, bind, try_except, now, modify, lift, ret, raise.
  rewrite (stored_paragraphs data ps Hd), Hts. cbv beta iota.
  fold url. rewrite Hpost. cbn [fst snd].
  destruct (exn_cls e); split; reflexivity.
Qed.

(** With a key, an answer whose status is not 200 is reported as
    [Dify API error: <status> - <body>]. *)
Theorem dify_http_error (key : string) (data : gmap string pyval)
    (ps : list pyval) (texts : list string) (resp : http_response) (w : World) :
  DIFY_API_KEY env = Some key -> key <> "" ->
  data !! "paragraph_analyses" = Some (VList ps) ->
  paragraph_texts ps = Ok texts ->
  requests_post env (DIFY_API_URL env ++ "/chat-messages")
    (dify_payload (dify_prompt (PyStr.join (nl ++ nl) texts))) = Ok resp ->
  status_code resp <> 200%Z ->
  snd (analyze_document_with_dify env data w) =
    Ok {[ "error" := VStr ("Dify API error: " ++ pretty (status_code resp)
                           ++ " - " ++ resp_text resp);
          "suggestions" := VList [] ]}.
Proof.
  intros Hk Hne Hd Hts Hpost Hcode.
  destruct (headers_configured key Hk Hne) as [headers Hh].
  unfold analyze_document_with_dify. rewrite Hh.
  unfold dify_try, bind, try_except, now, modify, lift, ret, raise.
  rewrite (stored_paragraphs data ps Hd), Hts. cbv beta iota.
  rewrite Hpost. cbv beta iota.
  replace (status_code resp =? 200)%Z with false
    by (symmetry; now apply Z.eqb_neq).
  reflexivity.
Qed.

(** With a key, paragraph analyses whose texts cannot be collected (a
    record without [text], or with a text that is not a string) send no
    request: the failure is returned as the error record. *)
Theorem dify_uncollectable (key : string) (data : gmap string pyval)
    (ps : list pyval) (e : exn) (w : World) :
  DIFY_API_KEY env = Some key -> key <> "" ->
  data !! "paragraph_analyses" = Some (VList ps) ->
  paragraph_texts ps = Raise e ->
  snd (analyze_document_with_dify env data w) =
    Ok {[ "error" := VStr (exn_text e); "suggestions" := VList [] ]} /\
  http_posts (fst (analyze_document_with_dify env data w)) = http_posts w.
Proof.
  intros Hk Hne Hd Hts.
  destruct (headers_configured key Hk Hne) as [headers Hh].
  unfold analyze_document_with_dify. rewrite Hh.
  unfold dify_try, bind, try_except, now, modify, lift, ret, raise.
  rewrite (stored_paragraphs data ps Hd), Hts. cbn [fst snd].
  destruct (paragraph_texts_raise ps e Hts) as [-> | ->]; split; reflexivity.
Qed.

End Dify.

Lemma dify_request_failure_witness :
  snd (analyze_document_with_dify timeout_env sample_data create_app) =
    Ok {[ "error" := VStr "API request timed out"; "suggestions" := VList [] ]}.
Proof.
  exact (proj1 (dify_request_failure timeout_env "secret" sample_data
                  [VDict {[ "text" := VStr "Hello world." ]}] ["Hello world."]
                  (Exn Timeout "timed out") create_app
                  eq_refl ltac:(discriminate) (lookup_singleton_eq _ _)
                  ltac:(vm_compute; reflexivity) eq_refl)).
Defined.

Lemma dify_http_error_witness :
  snd (analyze_document_with_dify unavailable_env sample_data create_app) =
    Ok {[ "error" := VStr "Dify API error: 503 - Service Unavailable";
          "suggestions" := VList [] ]}.
Proof.
  exact (dify_http_error unavailable_env "secret" sample_data
           [VDict {[ "text" := VStr "Hello world." ]}] ["Hello world."]
           (HttpResponse 503 "Service Unavailable"
              (Raise (Exn ValueError "Expecting value")))
           create_app
           eq_refl ltac:(discriminate) (lookup_singleton_eq _ _)
           ltac:(vm_compute; reflexivity) eq_refl ltac:(discriminate)).
Defined.

Lemma dify_uncollectable_witness :
  http_posts (fst (analyze_document_with_dify timeout_env textless_data create_app))
    = [].
Proof.
  exact (proj2 (dify_uncollectable timeout_env "secret" textless_data
                  [VDict ∅] (Exn KeyError "'text'") create_app
                  eq_refl ltac:(discriminate) (lookup_singleton_eq _ _)
                  ltac:(vm_compute; reflexivity))).
Defined.

(** ** Effects on the two tables *)

Section Update.
Variable env : Env.

(** Until the bounds check has succeeded the handler only reads. *)
Lemma update_paragraph_try_cases (data : pyval) (w : World) :
  fst (update_paragraph_try env data w) = w \/
  exists j results pa pid new_text,
    analysis_results w !! j = Some results /\
    results !! "paragraph_analyses" = Some pa /\
    update_paragraph_try env data w =
      update_in_place env j results pa pid new_text w.
Proof.
  unfold update_paragraph_try, bind, lift, ret.
  destruct (negb (py_truthy data)); [now left|].
  destruct (py_get data "paragraph_id") as [paragraph_id|]; [|now left].
  destruct (py_get data "new_text") as [new_text|]; [|now left].
  destruct (py_get data "job_id") as [job_id|]; [|now left].
  destruct (negb _); [now left|].
  destruct (py_int env paragraph_id) as [pid|]; [|now left].
  unfold lookup_results, gets, raise, ret.
  destruct job_id as [| b | q | j | l | d]; try now left.
  destruct (analysis_results w !! j) as [results|] eqn:Hres; [|now left].
  destruct (negb (py_truthy (VDict results))); [now left|].
  unfold py_getitem.
  destruct (results !! "paragraph_analyses") as [pa|] eqn:Hpa; [|now left].
  destruct (py_len pa) as [n|]; [|now left].
  destruct (pid <? Z.of_nat n)%Z; [|now left].
  right. exists j, results, pa, pid, new_text. repeat split; assumption.
Qed.

(** The tables after the branch that rewrites a record. *)
Lemma update_in_place_cases (j : string) (results : gmap string pyval)
    (pa : pyval) (pid : Z) (new_text : pyval) (w : World) :
  let w' := fst (update_in_place env j results pa pid new_text w) in
  processing_status w' = processing_status w /\
  (analysis_results w' = analysis_results w \/
   exists l k d d',
     pa = VList l /\ l !! k = Some (VDict d) /\ is_Some (d !! "text") /\
     rewritten env new_text pid d d' /\
     analysis_results w' =
       <[j := <["paragraph_analyses" := VList (<[k := VDict d']> l)]> results]>
         (analysis_results w)).
Proof.
  unfold update_in_place, bind, lift, raise, py_list_item.
  destruct pa as [| b | q | s | l | dd]; try (split; [reflexivity | now left]).
  destruct (norm_index (length l) pid) as [k|]; [|split; [reflexivity | now left]].
  destruct (l !! k) as [item|] eqn:Hk; [|split; [reflexivity | now left]].
  cbn [fst snd]. unfold py_getitem.
  destruct item as [| b | q | s | l0 | d]; try (split; [reflexivity | now left]).
  destruct (d !! "text") as [old_text|] eqn:Hd; [|split; [reflexivity | now left]].
  unfold store_paragraphs, modify, DocumentProcessor_init, ret, raise.
  assert (Htext : is_Some (d !! "text")) by (rewrite Hd; eauto).
  assert (Hfirst : rewritten env new_text pid d (<["text" := new_text]> d)) by now left.
  assert (Hleaf : forall (r : result response),
            let w1 := set_analysis_results
                        (insert j (<["paragraph_analyses" :=
                                      VList (<[k := VDict (<["text" := new_text]> d)]> l)]>
                                     results)) w in
            processing_status (fst (w1, r)) = processing_status w /\
            (analysis_results (fst (w1, r)) = analysis_results w \/
             exists l0 k0 d0 d',
               VList l = VList l0 /\ l0 !! k0 = Some (VDict d0) /\
               is_Some (d0 !! "text") /\ rewritten env new_text pid d0 d' /\
               analysis_results (fst (w1, r)) =
                 <[j := <["paragraph_analyses" := VList (<[k0 := VDict d']> l0)]> results]>
                   (analysis_results w))).
  { intros r w1. split; [reflexivity|]. right.
    exists l, k, d, (<["text" := new_text]> d).
    split; [reflexivity|]. split; [exact Hk|]. split; [exact Htext|].
    split; [exact Hfirst | reflexivity]. }
  destruct (spacy_load env) as [e0|].
  { destruct (exn_cls e0); apply Hleaf. }
  unfold analyze_value.
  destruct new_text as [| b | q | s | l0 | d0]; try apply Hleaf.
  unfold now, py_len.
  assert (Hsecond : rewritten env (VStr s) pid d
            (_analyze_single_paragraph env s pid ∪ <["text" := VStr s]> d)).
  { right. exists s. split; reflexivity. }
  destruct old_text;
    cbn [fst snd set_analysis_results processing_status analysis_results tick];
    (split; [reflexivity|]); right;
    exists l, k, d, (_analyze_single_paragraph env s pid ∪ <["text" := VStr s]> d);
    (split; [reflexivity|]); (split; [exact Hk|]); (split; [exact Htext|]);
    (split; [exact Hsecond|]); apply insert_insert_eq.
Qed.
End Update.

Section Tables.
Variable env : Env.

(** The two tables after [process_document]. *)
Lemma process_document_tables (file_path job_id : string) (w : World) :
  let w' := fst (process_document env file_path job_id w) in
  match Document env file_path with
  | Ok paragraphs =>
      exists created t,
        let results :=
          results_record job_id file_path (analyze_from env 0 paragraphs)
            (_generate_overall_analysis (analyze_from env 0 paragraphs))
            (isoformat created) in
        snd (process_document env file_path job_id w) = Ok results /\
        processing_status w' =
          <[job_id := status_record "completed" "Analysis completed" (isoformat t)]>
            (processing_status w) /\
        analysis_results w' = <[job_id := results]> (analysis_results w)
  | Raise e =>
      exists t,
        snd (process_document env file_path job_id w) = Raise e /\
        processing_status w' =
          <[job_id := status_record "failed" ("Analysis failed: " ++ exn_text e)
                        (isoformat t)]>
            (processing_status w) /\
        analysis_results w' = analysis_results w
  end.
Proof.
  unfold process_document, _analyze_paragraphs,
    DocumentProcessor_update_status, bind, try_except, now, modify, lift,
    ret, raise.
  cbn [fst snd]. destruct (Document env file_path) as [ps | e].
  - eexists _, _. cbn [fst snd processing_status analysis_results
                       set_processing_status set_analysis_results tick
                       add_document_opened].
    split; [reflexivity|]. split; [apply insert_insert_eq | reflexivity].
  - eexists. cbn [fst snd processing_status analysis_results
                  set_processing_status set_analysis_results tick
                  add_document_opened].
    split; [reflexivity|]. split; [apply insert_insert_eq | reflexivity].
Qed.

(** The two tables after the body of a worker thread: the status record
    of the job is rewritten; its results record is either left alone or
    replaced by the combined record of a successful analysis. *)
Lemma thread_body_tables (file_path job_id : string) (w : World) :
  let w' := fst (thread_body env file_path job_id w) in
  (exists s m t,
     (s = "completed" \/ s = "failed") /\
     processing_status w' =
       <[job_id := status_record s m (isoformat t)]> (processing_status w)) /\
  (analysis_results w' = analysis_results w \/
   exists paragraphs created dify_results,
     Document env file_path = Ok paragraphs /\
     analysis_results w' =
       <[job_id :=
           <["dify_analysis" := VDict dify_results]>
             (results_record job_id file_path (analyze_from env 0 paragraphs)
                (_generate_overall_analysis (analyze_from env 0 paragraphs))
                (isoformat created))]>
         (analysis_results w)).
Proof.
  unfold thread_body, thread_try, try_except, bind.
  pose proof (DocumentProcessor_init_state env w) as H0.
  destruct (DocumentProcessor_init env w) as [w0 [[] | e0]]; simpl in H0; subst w0.
  2:{ unfold EventManager_update_status, bind, now, modify.
      cbn [fst snd processing_status analysis_results set_processing_status tick].
      split; [|now left]. eexists "failed", _, _. split; [now right | reflexivity]. }
  pose proof (process_document_tables file_path job_id w) as H1.
  cbv zeta in H1.
  destruct (Document env file_path) as [ps | e1].
  - destruct H1 as (created & t & Hr & Hs & Ha).
    destruct (process_document env file_path job_id w) as [w1 r1].
    cbn [fst snd] in *. subst r1.
    destruct (dify_outcome env
                (results_record job_id file_path (analyze_from env 0 ps)
                   (_generate_overall_analysis (analyze_from env 0 ps))
                   (isoformat created)) w1)
      as ((r & l & Hd & _) & _ & Hs2 & Ha2).
    destruct (analyze_document_with_dify env _ w1) as [w2 r2].
    cbn [fst snd] in *. subst r2.
    unfold modify. cbn [fst snd processing_status analysis_results set_analysis_results].
    split.
    + exists "completed", "Analysis completed", t. split; [now left|].
      rewrite Hs2. exact Hs.
    + right. exists ps, created, r. split; [reflexivity|].
      rewrite Ha2, Ha. apply insert_insert_eq.
  - destruct H1 as (t & Hr & Hs & Ha).
    destruct (process_document env file_path job_id w) as [w1 r1].
    cbn [fst snd] in *. subst r1.
    unfold EventManager_update_status, bind, now, modify.
    cbn [fst snd processing_status analysis_results set_processing_status tick].
    split; [|left; exact Ha].
    eexists "failed", _, _. split; [now right|]. rewrite Hs. apply insert_insert_eq.
Qed.
End Tables.

Section Frames.

Variable env : Env.

(** The tables after [update_paragraph]: the status table is as before;
    the results table is as before, or one record of one stored list has
    been rewritten. *)
Lemma update_paragraph_outcome (req_json : result pyval) (w : World) :
  let w' := fst (update_paragraph env req_json w) in
  processing_status w' = processing_status w /\
  (analysis_results w' = analysis_results w \/
   exists j results l k d d' pid new_text,
     analysis_results w !! j = Some results /\
     results !! "paragraph_analyses" = Some (VList l) /\
     l !! k = Some (VDict d) /\ is_Some (d !! "text") /\
     rewritten env new_text pid d d' /\
     analysis_results w' =
       <[j := <["paragraph_analyses" := VList (<[k := VDict d']> l)]> results]>
         (analysis_results w)).
Proof.
  assert (Htry : forall data,
            let w1 := fst (update_paragraph_try env data (tick w)) in
            processing_status w1 = processing_status w /\
            (analysis_results w1 = analysis_results w \/
             exists j results l k d d' pid new_text,
               analysis_results w !! j = Some results /\
               results !! "paragraph_analyses" = Some (VList l) /\
               l !! k = Some (VDict d) /\ is_Some (d !! "text") /\
               rewritten env new_text pid d d' /\
               analysis_results w1 =
                 <[j := <["paragraph_analyses" := VList (<[k := VDict d']> l)]> results]>
                   (analysis_results w))).
  { intros data w1. subst w1.
    destruct (update_paragraph_try_cases env data (tick w))
      as [-> | (j & results & pa & pid & nt & Hres & Hpa & ->)].
    - split; [reflexivity | now left].
    - destruct (update_in_place_cases env j results pa pid nt (tick w))
        as [Hs [Ha | (l & k & d & d' & -> & Hk & Ht & Hrw & Ha)]].
      + split; [exact Hs | left; exact Ha].
      + split; [exact Hs|]. right.
        exists j, results, l, k, d, d', pid, nt. repeat split; assumption. }
  unfold update_paragraph, bind, try_except, now, lift.
  destruct req_json as [data | e].
  - specialize (Htry data). cbv zeta in Htry.
    destruct (update_paragraph_try env data (tick w)) as [w1 [r | e]];
      cbn [fst snd] in *; [exact Htry|].
    destruct (py_get data "job_id"); exact Htry.
  - cbn [fst snd]. split; [reflexivity | now left].
Qed.

(** [POST /api/update-paragraph] never writes the status table, never adds
    or removes a job, and changes no field of a results record but
    [paragraph_analyses], whose length it keeps: the overall analysis of
    the job stays as it was stored. *)
Theorem update_paragraph_frame (req_json : result pyval) (w : World) :
  let w' := fst (update_paragraph env req_json w) in
  processing_status w' = processing_status w /\
  dom (analysis_results w') = dom (analysis_results w) /\
  forall j results',
    analysis_results w' !! j = Some results' ->
    exists results,
      analysis_results w !! j = Some results /\
      (forall key, key <> "paragraph_analyses" ->
                   results' !! key = results !! key) /\
      (forall l, results !! "paragraph_analyses" = Some (VList l) ->
                 exists l', results' !! "paragraph_analyses" = Some (VList l') /\
                            length l' = length l).
Proof.
  intros w'. subst w'.
  destruct (update_paragraph_outcome req_json w)
    as [Hs [Ha | (j0 & r0 & l0 & k & d & d' & pid & nt & Hres & Hpa & Hk & _ & _ & Ha)]].
  - split; [exact Hs|]. rewrite Ha. split; [reflexivity|].
    intros j results' Hj. exists results'. split; [exact Hj|].
    split; [reflexivity|]. intros l Hl. now exists l.
  - split; [exact Hs|]. rewrite Ha. split.
    + rewrite dom_insert_L.
      apply subseteq_union_1_L, singleton_subseteq_l, elem_of_dom. eauto.
    + intros j results'. destruct (decide (j0 = j)) as [<- | Hne].
      * rewrite lookup_insert_eq. intros [= <-]. exists r0.
        split; [exact Hres|]. split.
        -- intros key Hkey. now rewrite lookup_insert_ne.
        -- intros l Hl. rewrite Hpa in Hl. injection Hl as <-.
           eexists. rewrite lookup_insert_eq. split; [reflexivity|].
           apply length_insert.
      * rewrite lookup_insert_ne by exact Hne. intros Hj.
        exists results'. split; [exact Hj|]. split; [reflexivity|].
        intros l Hl. now exists l.
Qed.

(** A worker thread writes only the entries of its own job. *)
Theorem thread_body_frame (file_path job_id other : string) (w : World) :
  other <> job_id ->
  processing_status (fst (thread_body env file_path job_id w)) !! other
    = processing_status w !! other /\
  analysis_results (fst (thread_body env file_path job_id w)) !! other
    = analysis_results w !! other.
Proof.
  intros Hne.
  destruct (thread_body_tables env file_path job_id w)
    as [(s & m & t & _ & Hs) [Ha | (ps & c & dr & _ & Ha)]];
    rewrite Hs, Ha; rewrite ?lookup_insert_ne by congruence; split; reflexivity.
Qed.

(** A worker thread whose model cannot be loaded or whose document cannot
    be opened stores no results: the results table is as before. *)
Theorem failed_thread_stores_nothing (file_path job_id : string) (w : World) :
  is_Some (spacy_load env) \/ (exists e, Document env file_path = Raise e) ->
  analysis_results (fst (thread_body env file_path job_id w)) = analysis_results w.
Proof.
  intros Hfail.
  destruct (thread_body_tables env file_path job_id w)
    as [_ [Ha | (ps & c & dr & Hdoc & Ha)]]; [exact Ha|].
  destruct Hfail as [[e0 He0] | [e He]]; [|congruence].
  unfold thread_body, thread_try, try_except, bind, DocumentProcessor_init.
  rewrite He0.
  destruct (exn_cls e0); reflexivity.
Qed.

End Frames.

Lemma thread_body_frame_witness :
  processing_status
    (fst (thread_body sample_env "app/static/uploads/job-1_b.docx" "job-1"
            (run sample_env [PostUpload (Some "a.docx"); RunThread 0] create_app)))
    !! "job-0"
  = processing_status
      (run sample_env [PostUpload (Some "a.docx"); RunThread 0] create_app)
      !! "job-0".
Proof.
  exact (proj1 (thread_body_frame sample_env "app/static/uploads/job-1_b.docx"
                  "job-1" "job-0"
                  (run sample_env [PostUpload (Some "a.docx"); RunThread 0]
                     create_app)
                  ltac:(discriminate))).
Defined.

Lemma failed_thread_stores_nothing_witness :
  analysis_results
    (fst (thread_body broken_env "app/static/uploads/job-0_a.docx" "job-0" create_app))
  = ∅.
Proof.
  exact (failed_thread_stores_nothing broken_env
           "app/static/uploads/job-0_a.docx" "job-0" create_app
           (or_intror (ex_intro _ (Exn ValueError "File is not a zip file") eq_refl))).
Defined.

(** ** When the overall analysis falls back *)

Lemma rbind_ok {A B} (r : result A) (k : A -> result B) (b : B) :
  rbind r k = Ok b -> exists a, r = Ok a /\ k a = Ok b.
Proof. destruct r as [a | e]; [now exists a | discriminate]. Qed.

Lemma py_sum_ok (f : pyval -> result Q) (l : list pyval) (acc : Q) :
  (exists q, py_sum f l acc = Ok q) <->
  Forall (fun p => exists x, f p = Ok x) l.
Proof.
  revert acc. induction l as [|p l IH]; intros acc.
  - split; [constructor | intros _; now exists acc].
  - cbn [py_sum]. unfold rbind. split.
    + intros [q Hq]. destruct (f p) as [x|] eqn:E; [|discriminate].
      constructor; [now exists x | apply (IH (acc + x)%Q); now exists q].
    + intros H. apply Forall_cons in H as [[x Hx] Hl]. rewrite Hx.
      now apply IH.
Qed.

Lemma number_field_ok (p : pyval) (key : string) :
  (exists x, (v <~ py_getitem p key ;; py_number v) = Ok x) <->
  exists d v, p = VDict d /\ d !! key = Some v /\ is_number v.
Proof.
  unfold rbind, py_getitem. split.
  - intros [x Hx]. destruct p as [| b | q | s | l | d]; try discriminate.
    destruct (d !! key) as [v|] eqn:E; [|discriminate].
    exists d, v. split; [reflexivity|]. split; [exact E|].
    destruct v; try discriminate; exact I.
  - intros (d & v & -> & -> & Hv). destruct v; try contradiction; eauto.
Qed.

Lemma sized_field_ok (p : pyval) (key : string) :
  (exists x, (v <~ py_getitem p key ;;
              n <~ py_len v ;; Ok (inject_Z (Z.of_nat n))) = Ok x) <->
  exists d v, p = VDict d /\ d !! key = Some v /\ is_sized v.
Proof.
  unfold rbind, py_getitem. split.
  - intros [x Hx]. destruct p as [| b | q | s | l | d]; try discriminate.
    destruct (d !! key) as [v|] eqn:E; [|discriminate].
    exists d, v. split; [reflexivity|]. split; [exact E|].
    destruct v; try discriminate; exact I.
  - intros (d & v & -> & -> & Hv). destruct v; try contradiction; eauto.
Qed.

Lemma overall_try_countable (l : list pyval) :
  ((exists a, overall_try l = Ok a) <-> Forall countable l) /\
  _generate_overall_analysis l !! "total_paragraphs" = Some (VNat (length l)).
Proof.
  split.
  - pose proof (py_sum_ok (fun p => v <~ py_getitem p "word_count" ;; py_number v) l 0) as H1.
    pose proof (py_sum_ok (fun p => v <~ py_getitem p "readability" ;; py_number v) l 0) as H2.
    pose proof (py_sum_ok (fun p => v <~ py_getitem p "entities" ;;
                                    n <~ py_len v ;; Ok (inject_Z (Z.of_nat n))) l 0) as H3.
    split.
    + intros [a Ha]. unfold overall_try in Ha.
      apply rbind_ok in Ha as (tw & E1 & Ha).
      apply rbind_ok in Ha as (avg & Eavg & Ha).
      apply rbind_ok in Ha as (te & E3' & _).
      assert (E2 : exists s, py_sum (fun p => v <~ py_getitem p "readability" ;; py_number v) l 0 = Ok s).
      { destruct l as [|p l']; [now exists 0%Q|].
        apply rbind_ok in Eavg as (s & Es & _). now exists s. }
      assert (E3 : exists te, py_sum (fun p => v <~ py_getitem p "entities" ;;
                                    n <~ py_len v ;; Ok (inject_Z (Z.of_nat n))) l 0 = Ok te)
        by now exists te.
      apply proj1 in H1. specialize (H1 (ex_intro _ tw E1)).
      apply H2 in E2. apply H3 in E3.
      rewrite Forall_forall in *. intros p Hp.
      specialize (H1 p Hp). specialize (E2 p Hp). specialize (E3 p Hp).
      cbv beta in E2, E3.
      apply number_field_ok in H1 as (d & wc & -> & Hwc & Nwc).
      apply number_field_ok in E2 as (d2 & rd & [= <-] & Hrd & Nrd).
      apply sized_field_ok in E3 as (d3 & es & [= <-] & Hes & Ses).
      exists d, wc, rd, es. repeat split; assumption.
    + intros Hl.
      assert (F1 : Forall (fun p => exists x, (v <~ py_getitem p "word_count" ;; py_number v) = Ok x) l).
      { eapply Forall_impl; [exact Hl|]. intros p (d & wc & rd & es & -> & Hwc & Nwc & _).
        apply number_field_ok. eauto. }
      assert (F2 : Forall (fun p => exists x, (v <~ py_getitem p "readability" ;; py_number v) = Ok x) l).
      { eapply Forall_impl; [exact Hl|]. intros p (d & wc & rd & es & -> & _ & _ & Hrd & Nrd & _).
        apply number_field_ok. eauto. }
      assert (F3 : Forall (fun p => exists x, (v <~ py_getitem p "entities" ;;
                                    n <~ py_len v ;; Ok (inject_Z (Z.of_nat n))) = Ok x) l).
      { eapply Forall_impl; [exact Hl|]. intros p (d & wc & rd & es & -> & _ & _ & _ & _ & Hes & Ses).
        apply sized_field_ok. eauto. }
      apply H1 in F1 as [tw E1]. apply H2 in F2 as [s E2]. apply H3 in F3 as [te E3].
      unfold overall_try. rewrite E1, E3.
      destruct l as [|p l']; [eexists; reflexivity|].
      rewrite E2. eexists; reflexivity.
  - unfold _generate_overall_analysis.
    destruct (overall_try l) as [a|] eqn:E; [|reflexivity].
    destruct (overall_try_inv l a E) as (tw & avg & te & ->). reflexivity.
Qed.



(** ** The results table *)

Section ResultsTable.

Variable env : Env.

Lemma analysis_wf_single (text : string) (i : Z) :
  analysis_wf (VDict (_analyze_single_paragraph env text i)).
Proof.
  unfold analysis_wf, _analyze_single_paragraph, basic_analysis.
  destruct (nlp env text) as [doc|];
    [destruct (flesch_reading_ease env text) as [q|]|];
    (eexists; split; [reflexivity|]);
    repeat split; eexists; reflexivity.
Qed.

Lemma analyze_from_wf (i : nat) (paragraphs : list string) :
  Forall analysis_wf (analyze_from env i paragraphs).
Proof.
  revert i. induction paragraphs as [|text rest IH]; intros i; [constructor|].
  cbn [analyze_from]. destruct (PyStr.truthy _); [|apply IH].
  constructor; [apply analysis_wf_single | apply IH].
Qed.

Lemma rewritten_wf (new_text : pyval) (pid : Z) (d d' : gmap string pyval) :
  analysis_wf (VDict d) -> rewritten env new_text pid d d' ->
  analysis_wf (VDict d').
Proof.
  intros (d0 & [= <-] & Ht & Hi & Hw & Hr & He & Hc) [-> | (s & -> & ->)].
  - exists (<["text" := new_text]> d). split; [reflexivity|].
    rewrite lookup_insert_eq. rewrite !lookup_insert_ne by discriminate.
    repeat split; eauto.
  - destruct (analysis_wf_single s pid)
      as (u & [= <-] & [t Ut] & [i Ui] & [w Uw] & [r Ur] & [e Ue] & [c Uc]).
    eexists. split; [reflexivity|].
    repeat split; eexists; apply lookup_union_Some_l; eassumption.
Qed.

Lemma analysis_wf_countable (p : pyval) : analysis_wf p -> countable p.
Proof.
  intros (d & -> & _ & _ & [w Hw] & [r Hr] & [e He] & _).
  exists d, (VNum w), (VNum r), (VList e). repeat split; assumption.
Qed.

(** An upload writes neither table. *)
Lemma upload_tables (req_file : option string) (w : World) :
  processing_status (fst (upload_document env req_file w)) = processing_status w /\
  analysis_results (fst (upload_document env req_file w)) = analysis_results w.
Proof.
  assert (H : preserves
                (fun w' => processing_status w' = processing_status w /\
                           analysis_results w' = analysis_results w)
                (upload_document env req_file)).
  { unfold upload_document, start_document_processing, new_uuid. pres. }
  apply H. split; reflexivity.
Qed.

Lemma results_shape_update (j : string) (results : gmap string pyval)
    (l : list pyval) (k : nat) (d d' : gmap string pyval)
    (new_text : pyval) (pid : Z) :
  results_shape j results ->
  results !! "paragraph_analyses" = Some (VList l) ->
  l !! k = Some (VDict d) ->
  rewritten env new_text pid d d' ->
  results_shape j (<["paragraph_analyses" := VList (<[k := VDict d']> l)]> results).
Proof.
  intros (Hj & Hp & (l0 & Hl0 & Hwf) & Ho & Hs & Hc) Hl Hk Hrw.
  rewrite Hl in Hl0. injection Hl0 as <-.
  unfold results_shape. rewrite lookup_insert_eq.
  rewrite !lookup_insert_ne by discriminate.
  split; [exact Hj|]. split; [exact Hp|]. split; [|repeat split; assumption].
  eexists. split; [reflexivity|].
  apply Forall_insert; [exact Hwf|].
  apply (rewritten_wf new_text pid d d'); [|exact Hrw].
  rewrite Forall_forall in Hwf. apply Hwf.
  apply list_elem_of_lookup. eauto.
Qed.

Lemma results_shape_combined (job_id file_path : string)
    (paragraphs : list string) (created : datetime) (dify : gmap string pyval) :
  results_shape job_id
    (<["dify_analysis" := VDict dify]>
       (results_record job_id file_path (analyze_from env 0 paragraphs)
          (_generate_overall_analysis (analyze_from env 0 paragraphs))
          (isoformat created))).
Proof.
  unfold results_shape.
  split; [reflexivity|]. split; [eexists; reflexivity|].
  split; [eexists; split; [reflexivity | apply analyze_from_wf]|].
  split; [eexists; reflexivity|]. split; [reflexivity|].
  eexists. split; [reflexivity | apply iso_text_isoformat].
Qed.

Lemma results_table_shape_step (ev : event) (w : World) :
  results_table_shape w -> results_table_shape (step env ev w).
Proof.
  intros [Hshape Hstat]. destruct ev as [f | j | j | r | n]; unfold step.
  - destruct (upload_tables f w) as [Hs Ha].
    split; intros j; rewrite ?Hs, Ha; auto.
  - unfold get_processing_status, get_status, try_except, bind, gets, ret.
    split; assumption.
  - unfold get_analysis_results, get_results, try_except, bind, gets, ret.
    destruct (negb _); split; assumption.
  - destruct (update_paragraph_outcome env r w)
      as [Hs [Ha | (j & res & l & k & d & d' & pid & nt & Hres & Hpa & Hk & _ & Hrw & Ha)]].
    + split; intros j; rewrite ?Hs, Ha; auto.
    + split; intros j'; rewrite ?Hs, Ha.
      * intros r'. destruct (decide (j = j')) as [<- | Hne].
        -- rewrite lookup_insert_eq. intros [= <-].
           eapply results_shape_update; eauto.
        -- rewrite lookup_insert_ne by exact Hne. apply Hshape.
      * destruct (decide (j = j')) as [<- | Hne].
        -- intros _. apply Hstat. eauto.
        -- rewrite lookup_insert_ne by exact Hne. apply Hstat.
  - destruct (threads w !! n) as [[file_path job_id]|]; [|split; assumption].
    destruct (thread_body_tables env file_path job_id (remove_thread n w))
      as [(s & m & t & _ & Hs) Hres].
    cbn [processing_status analysis_results remove_thread] in Hs, Hres.
    split.
    + intros j r'. destruct Hres as [Ha | (ps & c & dr & _ & Ha)]; rewrite Ha.
      * apply Hshape.
      * destruct (decide (job_id = j)) as [<- | Hne].
        -- rewrite lookup_insert_eq. intros [= <-].
           apply results_shape_combined.
        -- rewrite lookup_insert_ne by exact Hne. apply Hshape.
    + intros j. rewrite Hs. destruct (decide (job_id = j)) as [<- | Hne].
      * intros _. rewrite lookup_insert_eq. eauto.
      * rewrite lookup_insert_ne by exact Hne.
        destruct Hres as [Ha | (ps & c & dr & _ & Ha)]; rewrite Ha;
          rewrite ?lookup_insert_ne by exact Hne; apply Hstat.
Qed.

Lemma results_table_shape_run (evs : list event) (w : World) :
  results_table_shape w -> results_table_shape (run env evs w).
Proof.
  revert w. induction evs as [|ev evs IH]; intros w H; [exact H|].
  apply IH, results_table_shape_step, H.
Qed.

Lemma results_table_shape_create_app : results_table_shape create_app.
Proof.
  split; intros j; cbn [analysis_results create_app]; rewrite lookup_empty;
    [discriminate | intros [x Hx]; discriminate].
Qed.

(** In every state the application reaches, a stored results record holds
    the id of the job it is stored under, the path of the file, a list of
    well-formed paragraph analyses, an overall analysis, the status
    [completed] and an ISO creation time; and the job has a status
    record. *)
Theorem stored_results_shape (evs : list event) (job_id : string)
    (r : gmap string pyval) :
  analysis_results (run env evs create_app) !! job_id = Some r ->
  results_shape job_id r /\
  is_Some (processing_status (run env evs create_app) !! job_id).
Proof.
  intros Hr.
  destruct (results_table_shape_run evs create_app
              results_table_shape_create_app) as [Hshape Hstat].
  split; [apply Hshape, Hr | apply Hstat; eauto].
Qed.

(** In every state the application reaches, the paragraph analyses stored
    for a job, edited or not, can be added up: computing the overall
    analysis from them does not take the fallback. *)
Theorem stored_analyses_countable (evs : list event) (job_id : string)
    (r : gmap string pyval) (l : list pyval) :
  analysis_results (run env evs create_app) !! job_id = Some r ->
  r !! "paragraph_analyses" = Some (VList l) ->
  exists a, overall_try l = Ok a.
Proof.
  intros Hr Hl.
  destruct (results_table_shape_run evs create_app
              results_table_shape_create_app) as [Hshape _].
  destruct (Hshape job_id r Hr) as (_ & _ & (l0 & Hl0 & Hwf) & _).
  rewrite Hl in Hl0. injection Hl0 as <-.
  apply overall_try_countable.
  eapply Forall_impl; [exact Hwf | apply analysis_wf_countable].
Qed.

End ResultsTable.

Lemma stored_results_shape_witness :
  is_Some (processing_status
             (run sample_env [PostUpload (Some "a.docx"); RunThread 0] create_app)
             !! "job-0").
Proof.
  refine (proj2 (stored_results_shape sample_env
                   [PostUpload (Some "a.docx"); RunThread 0] "job-0" _ _)).
  refine (found_default _ ∅ _). vm_compute. reflexivity.
Defined.

Lemma stored_analyses_countable_witness :
  exists r l,
    analysis_results
      (run sample_env [PostUpload (Some "a.docx"); RunThread 0] create_app)
      !! "job-0" = Some r /\
    r !! "paragraph_analyses" = Some (VList l) /\
    exists a, overall_try l = Ok a.
Proof.
  eexists _, _.
  split; [refine (found_default _ ∅ _); vm_compute; reflexivity|].
  split; [refine (found_list_value _ _); vm_compute; reflexivity|].
  refine (stored_analyses_countable sample_env
            [PostUpload (Some "a.docx"); RunThread 0] "job-0" _ _ _ _).
  - refine (found_default _ ∅ _). vm_compute. reflexivity.
  - refine (found_list_value _ _). vm_compute. reflexivity.
Defined.

(** ** The branches of [update_paragraph] *)

Section UpdateBranches.

Variable env : Env.

(** The handler around its [try] block. *)
Lemma update_paragraph_returns (data : pyval) (w w1 : World) (r : response) :
  update_paragraph_try env data (tick w) = (w1, Ok r) ->
  update_paragraph env (Ok data) w = (w1, Ok r).
Proof.
  intros H. unfold update_paragraph, bind, try_except, now, lift.
  now rewrite H.
Qed.

Lemma update_paragraph_caught (d : gmap string pyval) (w w1 : World) (e : exn) :
  update_paragraph_try env (VDict d) (tick w) = (w1, Raise e) ->
  update_paragraph env (Ok (VDict d)) w =
    (tick w1, Ok (error_body "Internal server error", 500%Z)).
Proof.
  intros H. unfold update_paragraph, bind, try_except, now, lift.
  now rewrite H.
Qed.

(** A request object with a paragraph id that [int] accepts, a true new
    text and a job id that is a non-empty string: the [try] block gets to
    the lookup of the job. *)
Lemma update_paragraph_try_valid (d : gmap string pyval) (pidv new_text : pyval)
    (pid : Z) (j : string) (w : World) :
  d !! "paragraph_id" = Some pidv -> pidv <> VNone ->
  py_int env pidv = Ok pid ->
  d !! "new_text" = Some new_text -> py_truthy new_text = true ->
  d !! "job_id" = Some (VStr j) -> j <> "" ->
  update_paragraph_try env (VDict d) w =
    match analysis_results w !! j with
    | None => (w, Ok (error_body "Analysis results not found", 404%Z))
    | Some results =>
        if negb (py_truthy (VDict results))
        then (w, Ok (error_body "Analysis results not found", 404%Z))
        else
          (pa <- lift (py_getitem (VDict results) "paragraph_analyses") ;;
           n <- lift (py_len pa) ;;
           if (pid <? Z.of_nat n)%Z
           then update_in_place env j results pa pid new_text
           else ret (error_body "Invalid paragraph ID", 400%Z)) w
    end.
Proof.
  intros Hp Hnone Hint Hn Htn Hj Hjne.
  assert (Hd : py_truthy (VDict d) = true).
  { unfold py_truthy. destruct (size d) eqn:Es; [|reflexivity].
    exfalso. exact (size_lookup_nonzero _ _ _ Hp Es). }
  assert (Hjt : py_truthy (VStr j) = true).
  { unfold py_truthy. exact (truthy_nonempty _ Hjne). }
  assert (Hpn : py_is_none pidv = false).
  { destruct pidv; first [reflexivity | exfalso; apply Hnone; reflexivity]. }
  unfold update_paragraph_try, bind, lift, py_get, lookup_results, gets.
  rewrite Hd, Hp, Hn, Hj. cbn [negb default]. unfold id.
  rewrite Hpn, Htn, Hjt, Hint. cbn [negb andb].
  destruct (analysis_results w !! j) as [results|]; [|reflexivity].
  destruct (negb (py_truthy (VDict results))); reflexivity.
Qed.

(** A valid request for a job without stored results is answered with
    404; nothing but the clock has moved. *)
Theorem update_paragraph_unknown_job (d : gmap string pyval)
    (pidv new_text : pyval) (pid : Z) (j : string) (w : World) :
  d !! "paragraph_id" = Some pidv -> pidv <> VNone ->
  py_int env pidv = Ok pid ->
  d !! "new_text" = Some new_text -> py_truthy new_text = true ->
  d !! "job_id" = Some (VStr j) -> j <> "" ->
  analysis_results w !! j = None ->
  update_paragraph env (Ok (VDict d)) w =
    (tick w, Ok (error_body "Analysis results not found", 404%Z)).
Proof.
  intros Hp Hnone Hint Hn Htn Hj Hjne Hres.
  apply update_paragraph_returns.
  rewrite (update_paragraph_try_valid d pidv new_text pid j (tick w)) by assumption.
  cbn [analysis_results tick]. now rewrite Hres.
Qed.

(** A valid request whose paragraph id is at or above the number of stored
    paragraph analyses is answered with 400; nothing but the clock has
    moved. *)
Theorem update_paragraph_id_too_large (d : gmap string pyval)
    (pidv new_text : pyval) (pid : Z) (j : string)
    (results : gmap string pyval) (l : list pyval) (w : World) :
  d !! "paragraph_id" = Some pidv -> pidv <> VNone ->
  py_int env pidv = Ok pid ->
  d !! "new_text" = Some new_text -> py_truthy new_text = true ->
  d !! "job_id" = Some (VStr j) -> j <> "" ->
  analysis_results w !! j = Some results ->
  results !! "paragraph_analyses" = Some (VList l) ->
  (Z.of_nat (length l) <= pid)%Z ->
  update_paragraph env (Ok (VDict d)) w =
    (tick w, Ok (error_body "Invalid paragraph ID", 400%Z)).
Proof.
  intros Hp Hnone Hint Hn Htn Hj Hjne Hres Hpa Hge.
  apply update_paragraph_returns.
  rewrite (update_paragraph_try_valid d pidv new_text pid j (tick w)) by assumption.
  cbn [analysis_results tick]. rewrite Hres.
  assert (Hr : py_truthy (VDict results) = true).
  { unfold py_truthy. destruct (size results) eqn:Es; [|reflexivity].
    exfalso. exact (size_lookup_nonzero _ _ _ Hpa Es). }
  rewrite Hr. cbn [negb].
  unfold bind, lift, py_getitem. rewrite Hpa. cbn [py_len].
  replace (pid <? Z.of_nat (length l))%Z with false
    by (symmetry; apply Z.ltb_ge; exact Hge).
  reflexivity.
Qed.

(** A valid request whose paragraph id is below minus the number of stored
    paragraph analyses passes the bounds check, fails on the list access
    and is answered with 500; neither table has changed. *)
Theorem update_paragraph_id_below_range (d : gmap string pyval)
    (pidv new_text : pyval) (pid : Z) (j : string)
    (results : gmap string pyval) (l : list pyval) (w : World) :
  d !! "paragraph_id" = Some pidv -> pidv <> VNone ->
  py_int env pidv = Ok pid ->
  d !! "new_text" = Some new_text -> py_truthy new_text = true ->
  d !! "job_id" = Some (VStr j) -> j <> "" ->
  analysis_results w !! j = Some results ->
  results !! "paragraph_analyses" = Some (VList l) ->
  (pid < - Z.of_nat (length l))%Z ->
  update_paragraph env (Ok (VDict d)) w =
    (tick (tick w), Ok (error_body "Internal server error", 500%Z)).
Proof.
  intros Hp Hnone Hint Hn Htn Hj Hjne Hres Hpa Hlt.
  apply (update_paragraph_caught d w (tick w)
           (Exn IndexError "list index out of range")).
  rewrite (update_paragraph_try_valid d pidv new_text pid j (tick w)) by assumption.
  cbn [analysis_results tick]. rewrite Hres.
  assert (Hr : py_truthy (VDict results) = true).
  { unfold py_truthy. destruct (size results) eqn:Es; [|reflexivity].
    exfalso. exact (size_lookup_nonzero _ _ _ Hpa Es). }
  rewrite Hr. cbn [negb].
  unfold bind at 1, lift at 1, py_getitem. rewrite Hpa.
  unfold bind at 1, lift at 1. cbn [py_len].
  replace (pid <? Z.of_nat (length l))%Z with true
    by (symmetry; apply Z.ltb_lt; lia).
  unfold update_in_place, bind, lift, py_list_item, norm_index.
  replace (0 <=? pid)%Z with false by (symmetry; apply Z.leb_gt; lia).
  replace (- Z.of_nat (length l) <=? pid)%Z with false
    by (symmetry; apply Z.leb_gt; lia).
  reflexivity.
Qed.

(** A valid request for a stored record, when the language model cannot
    be loaded: the answer is 500, but the text of the record has already
    been replaced, with the rest of the record as it was. *)
Theorem update_paragraph_model_unavailable (d : gmap string pyval)
    (pidv new_text : pyval) (pid : Z) (j : string)
    (results : gmap string pyval) (l : list pyval) (k : nat)
    (rec : gmap string pyval) (e : exn) (w : World) :
  d !! "paragraph_id" = Some pidv -> pidv <> VNone ->
  py_int env pidv = Ok pid ->
  d !! "new_text" = Some new_text -> py_truthy new_text = true ->
  d !! "job_id" = Some (VStr j) -> j <> "" ->
  analysis_results w !! j = Some results ->
  results !! "paragraph_analyses" = Some (VList l) ->
  norm_index (length l) pid = Some k ->
  l !! k = Some (VDict rec) ->
  is_Some (rec !! "text") ->
  spacy_load env = Some e ->
  snd (update_paragraph env (Ok (VDict d)) w) =
    Ok (error_body "Internal server error", 500%Z) /\
  analysis_results (fst (update_paragraph env (Ok (VDict d)) w)) !! j =
    Some (<["paragraph_analyses" :=
              VList (<[k := VDict (<["text" := new_text]> rec)]> l)]> results).
Proof.
  intros Hp Hnone Hint Hn Htn Hj Hjne Hres Hpa Hk Hrec [old Hold] Hload.
  assert (Hlt : (pid <? Z.of_nat (length l))%Z = true).
  { apply Z.ltb_lt. unfold norm_index in Hk.
    destruct (Z.leb_spec 0 pid).
    - destruct (pid <? Z.of_nat (length l))%Z eqn:E; [|discriminate].
      now apply Z.ltb_lt.
    - lia. }
  assert (Htry : exists e',
            update_paragraph_try env (VDict d) (tick w) =
              (set_analysis_results
                 (insert j (<["paragraph_analyses" :=
                               VList (<[k := VDict (<["text" := new_text]> rec)]> l)]>
                              results)) (tick w),
               Raise e')).
  { rewrite (update_paragraph_try_valid d pidv new_text pid j (tick w)) by assumption.
    cbn [analysis_results tick]. rewrite Hres.
    assert (Hr : py_truthy (VDict results) = true).
    { unfold py_truthy. destruct (size results) eqn:Es; [|reflexivity].
      exfalso. exact (size_lookup_nonzero _ _ _ Hpa Es). }
    rewrite Hr. cbn [negb].
    unfold bind at 1, lift at 1, py_getitem. rewrite Hpa.
    unfold bind at 1, lift at 1. cbn [py_len]. rewrite Hlt.
    unfold update_in_place, bind, lift, py_list_item. rewrite Hk, Hrec.
    cbn [fst snd]. unfold py_getitem. rewrite Hold.
    unfold store_paragraphs, modify, DocumentProcessor_init, raise.
    rewrite Hload. destruct (exn_cls e); eexists; reflexivity. }
  destruct Htry as [e' Htry].
  rewrite (update_paragraph_caught d w _ e' Htry). cbn [fst snd].
  split; [reflexivity|].
  cbn [analysis_results tick set_analysis_results]. apply lookup_insert_eq.
Qed.

(** A request object that lacks the paragraph id (or holds null for it),
    the new text or the job id is answered with 400; nothing but the clock
    has moved. The id 0 is not taken for a missing id. *)
Theorem update_paragraph_missing_field (d : gmap string pyval) (w : World) :
  d <> ∅ ->
  d !! "paragraph_id" = None \/ d !! "paragraph_id" = Some VNone \/
  d !! "new_text" = None \/ d !! "job_id" = None ->
  update_paragraph env (Ok (VDict d)) w =
    (tick w, Ok (error_body "Missing required fields", 400%Z)).
Proof.
  intros Hne Hmiss. apply update_paragraph_returns.
  unfold update_paragraph_try.
  assert (Hd : py_truthy (VDict d) = true).
  { unfold py_truthy. destruct (size d) eqn:Es; [|reflexivity].
    exfalso. apply Hne. now apply map_size_empty_inv. }
  rewrite Hd. cbn [negb].
  unfold bind, lift, py_get, ret.
  destruct Hmiss as [H | [H | [H | H]]]; rewrite H;
    cbn [default py_is_none negb andb]; unfold id.
  - reflexivity.
  - reflexivity.
  - cbn [py_truthy]. rewrite andb_false_r. reflexivity.
  - cbn [py_truthy]. rewrite andb_false_r. reflexivity.
Qed.

(** A JSON body that is true but not an object (a list, a number, a
    string) makes the [try] block fail on [data.get], and the [except]
    clause fail on it again: the exception leaves the handler. A body that
    cannot be parsed is answered with 500. *)
Theorem update_paragraph_not_an_object (req_json : result pyval) (w : World) :
  match req_json with
  | Ok (VDict _) => True
  | Ok data =>
      py_truthy data = true ->
      snd (update_paragraph env req_json w) =
        Raise (Exn AttributeError "object has no attribute 'get'")
  | Raise _ =>
      update_paragraph env req_json w =
        (tick (tick w), Ok (error_body "Internal server error", 500%Z))
  end.
Proof.
  destruct req_json as [data | e]; [|reflexivity].
  destruct data; try exact I; intros Ht;
    unfold update_paragraph, update_paragraph_try, bind, try_except, now, lift;
    rewrite Ht; reflexivity.
Qed.

End UpdateBranches.

Lemma update_paragraph_unknown_job_witness :
  update_paragraph sample_env (Ok (VDict (update_request 0 "New text." "job-9")))
    sample_world
  = (tick sample_world, Ok (error_body "Analysis results not found", 404%Z)).
Proof.
  refine (update_paragraph_unknown_job sample_env
            (update_request 0 "New text." "job-9") (VInt 0) (VStr "New text.")
            0%Z "job-9" sample_world _ _ _ _ _ _ _ _);
    first [discriminate | vm_compute; reflexivity].
Defined.

Lemma update_paragraph_id_too_large_witness :
  update_paragraph sample_env (Ok (VDict (update_request 2 "New text." "job-0")))
    sample_world
  = (tick sample_world, Ok (error_body "Invalid paragraph ID", 400%Z)).
Proof.
  refine (update_paragraph_id_too_large sample_env
            (update_request 2 "New text." "job-0") (VInt 2) (VStr "New text.")
            2%Z "job-0" _ _ sample_world _ _ _ _ _ _ _ _ _ _).
  - vm_compute. reflexivity.
  - discriminate.
  - vm_compute. reflexivity.
  - vm_compute. reflexivity.
  - vm_compute. reflexivity.
  - vm_compute. reflexivity.
  - discriminate.
  - refine (found_default _ ∅ _). vm_compute. reflexivity.
  - refine (found_list_value _ _). vm_compute. reflexivity.
  - vm_compute. discriminate.
Defined.

Lemma update_paragraph_id_below_range_witness :
  update_paragraph sample_env (Ok (VDict (update_request (-3) "New text." "job-0")))
    sample_world
  = (tick (tick sample_world), Ok (error_body "Internal server error", 500%Z)).
Proof.
  refine (update_paragraph_id_below_range sample_env
            (update_request (-3) "New text." "job-0") (VInt (-3))
            (VStr "New text.") (-3)%Z "job-0" _ _ sample_world
            _ _ _ _ _ _ _ _ _ _).
  - vm_compute. reflexivity.
  - discriminate.
  - vm_compute. reflexivity.
  - vm_compute. reflexivity.
  - vm_compute. reflexivity.
  - vm_compute. reflexivity.
  - discriminate.
  - refine (found_default _ ∅ _). vm_compute. reflexivity.
  - refine (found_list_value _ _). vm_compute. reflexivity.
  - vm_compute. reflexivity.
Defined.

Lemma update_paragraph_model_unavailable_witness :
  snd (update_paragraph no_model_env
         (Ok (VDict (update_request 0 "New text." "job-0"))) sample_world)
  = Ok (error_body "Internal server error", 500%Z).
Proof.
  refine (proj1 (update_paragraph_model_unavailable no_model_env
            (update_request 0 "New text." "job-0") (VInt 0) (VStr "New text.")
            0%Z "job-0" _ _ 0%nat _
            (Exn OSError "Can't find model 'en_core_web_sm'") sample_world
            _ _ _ _ _ _ _ _ _ _ _ _ _)).
  - vm_compute. reflexivity.
  - discriminate.
  - vm_compute. reflexivity.
  - vm_compute. reflexivity.
  - vm_compute. reflexivity.
  - vm_compute. reflexivity.
  - discriminate.
  - refine (found_default _ ∅ _). vm_compute. reflexivity.
  - refine (found_list_value _ _). vm_compute. reflexivity.
  - vm_compute. reflexivity.
  - refine (found_dict_value _ _). vm_compute. reflexivity.
  - vm_compute. eexists. reflexivity.
  - vm_compute. reflexivity.
Defined.

Lemma update_paragraph_missing_field_witness :
  update_paragraph sample_env (Ok (VDict {[ "new_text" := VStr "New text." ]}))
    sample_world
  = (tick sample_world, Ok (error_body "Missing required fields", 400%Z)).
Proof.
  apply (update_paragraph_missing_field sample_env
           {[ "new_text" := VStr "New text." ]} sample_world).
  - apply insert_non_empty.
  - left. vm_compute. reflexivity.
Defined.

Lemma update_paragraph_not_an_object_witness :
  snd (update_paragraph sample_env (Ok (VList [VNum 1])) sample_world)
  = Raise (Exn AttributeError "object has no attribute 'get'").
Proof.
  exact (update_paragraph_not_an_object sample_env (Ok (VList [VNum 1]))
           sample_world eq_refl).
Defined.

(** ** Positions, word counts and comments of the records *)

Lemma has_text_token (s : string) :
  PyStr.has_text s = true ->
  (1 <= PyStr.token_starts true s)%nat.
Proof.
  induction s as [|c s IH]; [discriminate|].
  cbn [PyStr.has_text PyStr.token_starts].
  destruct (PyStr.isspace c); cbn [negb orb]; [exact IH | intros _; lia].
Qed.

Section Records.

Variable env : Env.

Lemma single_record_fields (text : string) (i : Z) :
  _analyze_single_paragraph env text i !! "paragraph_index" = Some (VInt i) /\
  _analyze_single_paragraph env text i !! "text" = Some (VStr text) /\
  _analyze_single_paragraph env text i !! "word_count"
    = Some (VNat (PyStr.token_starts true text)).
Proof.
  unfold _analyze_single_paragraph, basic_analysis.
  rewrite PyStrFacts.split_length.
  destruct (nlp env text) as [doc|];
    [destruct (flesch_reading_ease env text) as [q|]|];
    repeat split; reflexivity.
Qed.

Lemma analyze_from_positions (i0 : nat) (paragraphs : list string)
    (k : nat) (r : pyval) :
  analyze_from env i0 paragraphs !! k = Some r ->
  exists d i text,
    r = VDict d /\
    d !! "paragraph_index" = Some (VNat i) /\
    d !! "text" = Some (VStr text) /\
    d !! "word_count" = Some (VNat (PyStr.token_starts true text)) /\
    (i0 + k <= i)%nat /\
    paragraphs !! (i - i0)%nat = Some text /\
    PyStr.has_text text = true.
Proof.
  revert i0 k. induction paragraphs as [|t rest IH]; intros i0 k; [discriminate|].
  cbn [analyze_from]. rewrite PyStrFacts.strip_truthy.
  destruct (PyStr.has_text t) eqn:Ht.
  - destruct k as [|k].
    + intros [= <-].
      destruct (single_record_fields t (Z.of_nat i0)) as (Hi & Htx & Hw).
      exists (_analyze_single_paragraph env t (Z.of_nat i0)), i0, t.
      split; [reflexivity|]. split; [exact Hi|]. split; [exact Htx|].
      split; [exact Hw|]. split; [lia|].
      split; [now rewrite Nat.sub_diag | exact Ht].
    + intros Hk. destruct (IH (S i0) k Hk)
        as (d & i & text & -> & Hi & Htx & Hw & Hle & Hp & Hh).
      exists d, i, text. split; [reflexivity|]. split; [exact Hi|].
      split; [exact Htx|]. split; [exact Hw|]. split; [lia|]. split; [|exact Hh].
      replace (i - i0)%nat with (S (i - S i0)) by lia. exact Hp.
  - intros Hk. destruct (IH (S i0) k Hk)
      as (d & i & text & -> & Hi & Htx & Hw & Hle & Hp & Hh).
    exists d, i, text. split; [reflexivity|]. split; [exact Hi|].
    split; [exact Htx|]. split; [exact Hw|]. split; [lia|]. split; [|exact Hh].
    replace (i - i0)%nat with (S (i - S i0)) by lia. exact Hp.
Qed.

(** The [paragraph_index] of a record is the position of its paragraph in
    the document, not in the returned list: the record at list position
    [k] carries an index [i >= k], and [i] is where its text stands in the
    document. Every record has a word count of at least one. *)
Theorem record_positions (path : string) (w : World)
    (paragraphs : list string) (l : list pyval) (k : nat) (r : pyval) :
  Document env path = Ok paragraphs ->
  snd (_analyze_paragraphs env path w) = Ok l ->
  l !! k = Some r ->
  exists d i text n,
    r = VDict d /\
    d !! "paragraph_index" = Some (VNat i) /\
    d !! "text" = Some (VStr text) /\
    d !! "word_count" = Some (VNat n) /\
    (k <= i)%nat /\ paragraphs !! i = Some text /\ (1 <= n)%nat.
Proof.
  intros Hdoc Hrun Hk.
  unfold _analyze_paragraphs, bind, modify, lift, ret in Hrun.
  rewrite Hdoc in Hrun. cbn [snd] in Hrun. injection Hrun as <-.
  destruct (analyze_from_positions 0 paragraphs k r Hk)
    as (d & i & text & -> & Hi & Htx & Hw & Hle & Hp & Hh).
  exists d, i, text, (PyStr.token_starts true text).
  split; [reflexivity|]. split; [exact Hi|]. split; [exact Htx|].
  split; [exact Hw|]. split; [exact Hle|].
  split; [now rewrite Nat.sub_0_r in Hp | now apply has_text_token].
Qed.

Lemma short_not_difficult : short_comment <> difficult_comment.
Proof. unfold short_comment, difficult_comment. intros [= H]. Qed.

(** When the model and the readability library succeed, the record has at
    most three comments; the remark on a short paragraph is there exactly
    when the text has fewer than ten tokens, the remark on a difficult one
    exactly when the readability is below 30. *)
Theorem record_comments (text : string) (i : Z) (doc : nlp_doc) (q : Q) :
  nlp env text = Ok doc ->
  flesch_reading_ease env text = Ok q ->
  exists cs,
    _analyze_single_paragraph env text i !! "comments" = Some (VList cs) /\
    (length cs <= 3)%nat /\
    (short_comment ∈ cs <-> (PyStr.token_starts true text < 10)%nat) /\
    (difficult_comment ∈ cs <-> (q < 30)%Q).
Proof.
  intros Hn Hf. unfold _analyze_single_paragraph. rewrite Hn, Hf.
  rewrite PyStrFacts.split_length.
  eexists. split; [reflexivity|].
  set (n := PyStr.token_starts true text).
  set (p := passive_count doc).
  assert (Hps : short_comment ∉ (if (0 <? p)%nat then [passive_comment p] else [])).
  { destruct (0 <? p)%nat; [|apply not_elem_of_nil].
    intros H. apply list_elem_of_singleton in H.
    symmetry in H. exact (passive_not_short p H). }
  assert (Hpd : difficult_comment ∉ (if (0 <? p)%nat then [passive_comment p] else [])).
  { destruct (0 <? p)%nat; [|apply not_elem_of_nil].
    intros H. apply list_elem_of_singleton in H.
    symmetry in H. exact (passive_not_difficult p H). }
  split; [|split].
  - rewrite !length_app.
    destruct (n <? 10)%nat, (Qltb q 30), (0 <? p)%nat; cbn [length]; lia.
  - rewrite !elem_of_app. destruct (Nat.ltb_spec n 10) as [Hlt | Hge].
    + split; [intros _; exact Hlt | intros _; left; apply list_elem_of_singleton; reflexivity].
    + split; [|lia]. intros [H | [H | H]].
      * now apply elem_of_nil in H.
      * destruct (Qltb q 30); [|now apply elem_of_nil in H].
        apply list_elem_of_singleton in H. destruct (short_not_difficult H).
      * destruct (Hps H).
  - rewrite !elem_of_app. destruct (Qltb q 30) eqn:E.
    + apply Qltb_true in E.
      split; [intros _; exact E|].
      intros _. right. left. apply list_elem_of_singleton. reflexivity.
    + apply Qltb_false in E. split.
      * intros [H | [H | H]].
        -- destruct (n <? 10)%nat; [|now apply elem_of_nil in H].
           apply list_elem_of_singleton in H. symmetry in H.
           destruct (short_not_difficult H).
        -- now apply elem_of_nil in H.
        -- destruct (Hpd H).
      * intros Hlt. exfalso. exact (Qlt_not_le _ _ Hlt E).
Qed.

End Records.

Lemma record_positions_witness :
  exists d,
    VDict d = VDict (_analyze_single_paragraph sample_env
                       "The ball was thrown by John in Paris." 2) /\
    d !! "paragraph_index" = Some (VNat 2).
Proof.
  destruct (record_positions sample_env "a.docx" create_app sample_document
              (analyze_from sample_env 0 sample_document) 1
              (VDict (_analyze_single_paragraph sample_env
                        "The ball was thrown by John in Paris." 2))
              eq_refl eq_refl eq_refl)
    as (d & i & text & n & Hd & Hi & Htx & _).
  exists (_analyze_single_paragraph sample_env
            "The ball was thrown by John in Paris." 2).
  split; [reflexivity | vm_compute; reflexivity].
Defined.

Lemma record_comments_witness :
  exists cs,
    _analyze_single_paragraph sample_env "Hello world." 0 !! "comments"
      = Some (VList cs) /\
    (length cs <= 3)%nat.
Proof.
  destruct (record_comments sample_env "Hello world." 0
              (NlpDoc [Token "Hello" "dep"; Token "world." "dep"] [])
              (inject_Z 88) eq_refl eq_refl)
    as (cs & Hcs & Hlen & _).
  exists cs. split; [exact Hcs | exact Hlen].
Defined.

(** ** Log files *)

(** [get_recent_logs] returns a tail of the file: the last [lines] lines
    (all of them when the file is shorter) for a positive [lines], but the
    whole file for [lines = 0]; a missing file gives the empty list. *)
Theorem recent_logs_tail (ls : list string) (lines : Z) :
  exists r,
    get_recent_logs (FileLines ls) lines = Ok r /\
    (exists before, ls = (before ++ r)%list) /\
    ((0 < lines)%Z -> length r = Nat.min (Z.to_nat lines) (length ls)) /\
    (lines = 0%Z -> r = ls) /\
    get_recent_logs FileNotFound lines = Ok [].
Proof.
  unfold get_recent_logs, py_slice_from. eexists. split; [reflexivity|].
  split; [|split; [|split; [|reflexivity]]].
  - eexists. symmetry. apply take_drop.
  - intros Hpos.
    replace (- lines <? 0)%Z with true by (symmetry; apply Z.ltb_lt; lia).
    rewrite length_drop. lia.
  - intros ->. change (- 0 <? 0)%Z with false. cbv iota.
    replace (Z.to_nat (Z.min (- 0) (Z.of_nat (length ls)))) with 0%nat by lia.
    reflexivity.
Qed.

Lemma lines_at_cons (level line : string) (lines : list string) :
  lines_at level (line :: lines) =
    ((if decide (log_level line = Some level) then 1 else 0)
     + lines_at level lines)%nat.
Proof.
  unfold lines_at. rewrite filter_cons.
  destruct (decide (log_level line = Some level)); reflexivity.
Qed.

Lemma count_levels_from (lines : list string) (acc : gmap string nat)
    (c : string -> nat) :
  (forall level, acc !! level = if (c level =? 0)%nat then None else Some (c level)) ->
  forall level,
    fold_left count_level lines acc !! level =
      if (c level + lines_at level lines =? 0)%nat then None
      else Some (c level + lines_at level lines)%nat.
Proof.
  revert acc c. induction lines as [|line lines IH]; intros acc c Hacc level.
  - cbn [fold_left]. unfold lines_at. cbn [filter list_filter length].
    rewrite Nat.add_0_r. apply Hacc.
  - cbn [fold_left]. rewrite lines_at_cons.
    rewrite (IH (count_level acc line)
               (fun lv => (c lv + if decide (log_level line = Some lv) then 1 else 0)%nat)).
    + now rewrite Nat.add_assoc.
    + intros lv. unfold count_level.
      destruct (log_level line) as [found|] eqn:E.
      * destruct (decide (Some found = Some lv)) as [[= ->] | Hne].
        -- rewrite lookup_insert_eq, Hacc.
           destruct (Nat.eqb_spec (c lv) 0) as [-> | Hc]; cbn [default].
           ++ reflexivity.
           ++ replace (c lv + 1 =? 0)%nat with false
                by (symmetry; apply Nat.eqb_neq; lia).
              reflexivity.
        -- rewrite lookup_insert_ne by congruence.
           rewrite Nat.add_0_r. apply Hacc.
      * destruct (decide (None = Some lv)); [discriminate|].
        rewrite Nat.add_0_r. apply Hacc.
Qed.

(** The statistics of [view_log_stats] hold, for each level, the number of
    lines whose third bar-separated field, stripped, is that level; a level
    no line carries has no entry. Lines with fewer than three fields are
    not counted. *)
Theorem level_counts_spec (lines : list string) (level : string) :
  level_counts lines !! level =
    if (lines_at level lines =? 0)%nat then None
    else Some (lines_at level lines).
Proof.
  unfold level_counts.
  rewrite (count_levels_from lines ∅ (fun _ => 0%nat)); [reflexivity|].
  intros lv. apply lookup_empty.
Qed.

(** Two lines of the detailed log format, one line without bars. *)
Example level_counts_sample :
  let lines :=
    ["2024-05-17 09:30:00 | MindDoc | INFO | log_info:117 | started";
     "plain text";
     "2024-05-17 09:30:02 | MindDoc | ERROR | log_error:134 | failed";
     "2024-05-17 09:30:03 | MindDoc | INFO | log_info:117 | done"] in
  level_counts lines !! "INFO" = Some 2%nat /\
  level_counts lines !! "ERROR" = Some 1%nat /\
  level_counts lines !! "DEBUG" = None.
Proof. repeat split; vm_compute; reflexivity. Qed.
